(** * Industrial process control: the simulation engine and its displays

    A shallow embedding of the tick handler of [ProcessControlDashboard],
    of the fraction aggregation of [MultiParameterControlDashboard], of the
    bounded trend buffers, of [ConvergenceIndicator], [ProcessParameterCard]
    and [FractionMainDisplay], and of the interval effect that drives the
    ticks.

    Numbers.  A JavaScript number is modelled by [JS.number]: a rational, or
    one of the three special values Infinity, -Infinity and NaN.  Finite
    arithmetic is exact (binary64 rounding, overflow and the sign of zero are
    left out); the special values follow IEEE 754 as JavaScript has them
    (x / 0, NaN propagation, comparisons with NaN are false, NaN and 0 are
    falsy).  [Math.random()] is an explicit argument [r] with [0 <= r < 1].
    The module [Binary64] has the tick and the numeric examples once more
    in IEEE 754 double precision, the arithmetic the program runs on; what
    is proved on the rationals about magnitudes is stated for numbers far
    inside the range of double precision ([ordinary]). *)

From Stdlib Require Import QArith Qabs Lqa ZArith Floats Ascii.
From stdpp Require Import base list gmap strings.

Open Scope Q_scope.

(* ================================================================== *)
(** ** JavaScript numbers and the operators the source uses            *)
(* ================================================================== *)

Module JS.

Inductive number : Type :=
| Fin (q : Q)
| PInf
| NInf
| NaN.

Definition is_finite (x : number) : bool :=
  match x with Fin _ => true | _ => false end.

(** The sign of a rational, as a [comparison] with 0. *)
Definition sgn (q : Q) : comparison := q ?= 0.

Definition neg (x : number) : number :=
  match x with
  | Fin a => Fin (- a)
  | PInf => NInf
  | NInf => PInf
  | NaN => NaN
  end.

Definition add (x y : number) : number :=
  match x, y with
  | NaN, _ | _, NaN => NaN
  | Fin a, Fin b => Fin (a + b)
  | PInf, NInf | NInf, PInf => NaN
  | PInf, _ | _, PInf => PInf
  | NInf, _ | _, NInf => NInf
  end.

Definition sub (x y : number) : number := add x (neg y).

(** An infinity with the sign [c]; 0 times Infinity is NaN. *)
Definition inf_of_sign (c : comparison) : number :=
  match c with Gt => PInf | Lt => NInf | Eq => NaN end.

Definition sign_of (x : number) : comparison :=
  match x with
  | Fin a => sgn a
  | PInf => Gt
  | NInf => Lt
  | NaN => Eq
  end.

Definition sign_mul (c d : comparison) : comparison :=
  match c, d with
  | Eq, _ | _, Eq => Eq
  | Gt, Gt | Lt, Lt => Gt
  | Gt, Lt | Lt, Gt => Lt
  end.

Definition mul (x y : number) : number :=
  match x, y with
  | NaN, _ | _, NaN => NaN
  | Fin a, Fin b => Fin (a * b)
  | _, _ => inf_of_sign (sign_mul (sign_of x) (sign_of y))
  end.

(** [x / y].  A finite value over 0 is an infinity of the sign of the
    numerator, 0 / 0 is NaN, a finite value over an infinity is 0. *)
Definition div (x y : number) : number :=
  match x, y with
  | NaN, _ | _, NaN => NaN
  | Fin a, Fin b =>
      if Qeq_bool b 0 then inf_of_sign (sgn a) else Fin (a / b)
  | Fin _, _ => Fin 0
  | _, Fin b => match sgn b with
                | Lt => neg x
                | _ => x
                end
  | _, _ => NaN
  end.

(** [Math.abs]. *)
Definition abs (x : number) : number :=
  match x with
  | Fin a => Fin (Qabs a)
  | PInf | NInf => PInf
  | NaN => NaN
  end.

(** [x < y]; false as soon as one side is NaN. *)
Definition ltb (x y : number) : bool :=
  match x, y with
  | NaN, _ | _, NaN => false
  | Fin a, Fin b => match a ?= b with Lt => true | _ => false end
  | NInf, NInf => false
  | NInf, _ => true
  | _, NInf => false
  | PInf, _ => false
  | _, PInf => true
  end.

(** [x > y]. *)
Definition gtb (x y : number) : bool := ltb y x.

Definition is_nan (x : number) : bool :=
  match x with NaN => true | _ => false end.

(** [Math.max(x, y)] and [Math.min(x, y)]: NaN if an argument is NaN. *)
Definition max (x y : number) : number :=
  if is_nan x || is_nan y then NaN
  else if ltb x y then y else x.

Definition min (x y : number) : number :=
  if is_nan x || is_nan y then NaN
  else if ltb y x then y else x.

(** ToBoolean on a number: 0 and NaN are falsy. *)
Definition truthy (x : number) : bool :=
  match x with
  | Fin a => negb (Qeq_bool a 0)
  | PInf | NInf => true
  | NaN => false
  end.

(** [x || d] on numbers. *)
Definition or_else (x d : number) : number :=
  if truthy x then x else d.

(** [o?.f || d], where the optional chain [o?.f] is [None] when [o] is
    undefined: undefined is falsy. *)
Definition opt_or_else (o : option number) (d : number) : number :=
  match o with
  | Some x => or_else x d
  | None => d
  end.

(** Two numbers denote the same value. *)
Definition same (x y : number) : Prop :=
  match x, y with
  | Fin a, Fin b => a == b
  | PInf, PInf | NInf, NInf | NaN, NaN => True
  | _, _ => False
  end.


(** [Array.prototype.slice(start)] with the end left out: a negative
    [start] counts from the end of the array. *)
Definition slice {A : Type} (start : Z) (l : list A) : list A :=
  let len := Z.of_nat (length l) in
  let k := if (start <? 0)%Z then Z.max (len + start) 0
           else Z.min start len in
  drop (Z.to_nat k) l.

End JS.

Coercion JS.Fin : Q >-> JS.number.

Declare Scope js_scope.
Delimit Scope js_scope with js.
Bind Scope js_scope with JS.number.
Infix "+" := JS.add : js_scope.
Infix "-" := JS.sub : js_scope.
Infix "*" := JS.mul : js_scope.
Infix "/" := JS.div : js_scope.
Infix "<?" := JS.ltb : js_scope.
Infix ">?" := JS.gtb : js_scope.
Infix "||" := JS.or_else : js_scope.
Infix "≃" := JS.same (at level 70, no associativity) : js_scope.

(* ================================================================== *)
(** ** components/convergence-indicator.tsx                            *)
(* ================================================================== *)

Module ConvergenceIndicator.

(** The icons of lucide-react the component renders. *)
Inductive icon : Type :=
| CheckCircle
| ArrowUp
| ArrowDown
| Minus.

Definition getActionIcon (error : JS.number) (isConverged : bool) : icon :=
  if isConverged then CheckCircle
  else if (error >? 2)%js then ArrowUp
  else if (error <? -2)%js then ArrowDown
  else Minus.

Definition getActionText (error : JS.number) (isConverged : bool) : string :=
  if isConverged then "System Converged"
  else if (error >? 2)%js then "Increase Actuator"
  else if (error <? -2)%js then "Decrease Actuator"
  else "Fine Tuning".

(** The four answers of the classifier, as the specification names them,
    and how the component shows each. *)
Inductive action : Type :=
| Converged
| Increase
| Decrease
| FineTune.

Definition text_of (a : action) : string :=
  match a with
  | Converged => "System Converged"
  | Increase => "Increase Actuator"
  | Decrease => "Decrease Actuator"
  | FineTune => "Fine Tuning"
  end.

Definition icon_of (a : action) : icon :=
  match a with
  | Converged => CheckCircle
  | Increase => ArrowUp
  | Decrease => ArrowDown
  | FineTune => Minus
  end.

(** The component shows the action [a] for [error] and [isConverged]. *)
Definition shows (error : JS.number) (isConverged : bool) (a : action)
  : Prop :=
  getActionText error isConverged = text_of a
  /\ getActionIcon error isConverged = icon_of a.

(** [getActionColor], the variant of the badge. *)
Definition getActionColor (error : JS.number) (isConverged : bool) : string :=
  if isConverged then "default"
  else if (JS.abs error >? 5)%js then "destructive"
  else "secondary".

(** The value of the progress bar: [Math.min(100, Math.abs(error) * 5)]. *)
Definition progressValue (error : JS.number) : JS.number :=
  JS.min 100 (JS.abs error * 5)%js.

(** The three texts of the action guidance. *)
Definition guidance_ok : string := "✓ Process is within acceptable limits".
Definition guidance_up : string :=
  "↑ PV below SP - Increase heat/power input".
Definition guidance_down : string :=
  "↓ PV above SP - Decrease heat/power input".

(** The action guidance at the foot of the component. *)
Definition guidanceText (error : JS.number) (isConverged : bool) : string :=
  if isConverged then guidance_ok
  else if (error >? 0)%js then guidance_up
  else guidance_down.

End ConvergenceIndicator.

(* ================================================================== *)
(** ** Bounded trend buffers                                           *)
(* ================================================================== *)

(** [[...prev, x].slice(-50)]: the update of [processData] in the
    single-parameter dashboard and of [fractionData] in the multi-parameter
    dashboard. *)
Definition appendHistory {A : Type} (prev : list A) (x : A) : list A :=
  JS.slice (-50) (prev ++ [x]).

(* ================================================================== *)
(** ** ProcessControlDashboard: the single-parameter engine            *)
(* ================================================================== *)

Module ProcessControlDashboard.

Record ProcessData : Type := {
  timestamp : Z;
  pv : JS.number;
  sp : JS.number;
  aiSp : JS.number
}.

(** The component state, one field per [useState] hook.  The two limits
    are one-element arrays in the source (slider values) that are only
    read at index 0; they are kept as the number at that index. *)
Record state : Type := {
  processData : list ProcessData;
  currentPV : JS.number;
  currentSP : JS.number;
  aiEnabled : bool;
  spLowLimit : JS.number;
  spHighLimit : JS.number;
  manualSP : JS.number
}.

Definition initial : state := {|
  processData := [];
  currentPV := 45.2;
  currentSP := 50.0;
  aiEnabled := true;
  spLowLimit := 20;
  spHighLimit := 80;
  manualSP := 50.0
|}.

(** The setpoint of the tick; [r] is the draw of [Math.random()]. *)
Definition nextAiSp (enabled : bool) (low high sp manual : JS.number)
    (r : Q) : JS.number :=
  if enabled
  then JS.max low (JS.min high (sp + (r - 0.5) * 2))%js
  else manual.

(** The process variable follows the setpoint with lag and noise; [r] is
    the second draw of [Math.random()]. *)
Definition nextPV (pv aiSp : JS.number) (r : Q) : JS.number :=
  let error := (aiSp - pv)%js in
  (pv + error * 0.1 + (r - 0.5) * 1.5)%js.

(** The body of the interval callback: [now] is [Date.now()], [r1] and
    [r2] the two draws of [Math.random()], in the order of evaluation. *)
Definition tick (now : Z) (r1 r2 : Q) (s : state) : state :=
  let aiSp := nextAiSp (aiEnabled s) (spLowLimit s) (spHighLimit s)
                (currentSP s) (manualSP s) r1 in
  let newPV := nextPV (currentPV s) aiSp r2 in
  {| processData :=
       appendHistory (processData s)
         {| timestamp := now; pv := newPV; sp := aiSp; aiSp := aiSp |};
     currentPV := newPV;
     currentSP := aiSp;
     aiEnabled := aiEnabled s;
     spLowLimit := spLowLimit s;
     spHighLimit := spHighLimit s;
     manualSP := manualSP s |}.

(** The state setters the presentation layer calls between ticks. *)
Definition setAiEnabled (b : bool) (s : state) : state :=
  {| processData := processData s; currentPV := currentPV s;
     currentSP := currentSP s; aiEnabled := b;
     spLowLimit := spLowLimit s; spHighLimit := spHighLimit s;
     manualSP := manualSP s |}.

Definition setManualSP (v : JS.number) (s : state) : state :=
  {| processData := processData s; currentPV := currentPV s;
     currentSP := currentSP s; aiEnabled := aiEnabled s;
     spLowLimit := spLowLimit s; spHighLimit := spHighLimit s;
     manualSP := v |}.

Definition setSpLowLimit (v : JS.number) (s : state) : state :=
  {| processData := processData s; currentPV := currentPV s;
     currentSP := currentSP s; aiEnabled := aiEnabled s;
     spLowLimit := v; spHighLimit := spHighLimit s;
     manualSP := manualSP s |}.

Definition setSpHighLimit (v : JS.number) (s : state) : state :=
  {| processData := processData s; currentPV := currentPV s;
     currentSP := currentSP s; aiEnabled := aiEnabled s;
     spLowLimit := spLowLimit s; spHighLimit := v;
     manualSP := manualSP s |}.

(** What can happen to the component: a tick of the interval, with its
    clock reading and its two random draws, or a call of a setter. *)
Inductive event : Type :=
| Tick (now : Z) (r1 r2 : Q)
| SetAiEnabled (b : bool)
| SetManualSP (v : JS.number)
| SetSpLowLimit (v : JS.number)
| SetSpHighLimit (v : JS.number).

(** A draw of [Math.random()] lies in [0, 1). *)
Definition is_random (r : Q) : Prop := 0 <= r < 1.

Definition valid_event (e : event) : Prop :=
  match e with
  | Tick _ r1 r2 => is_random r1 /\ is_random r2
  | _ => True
  end.


Definition apply_event (e : event) (s : state) : state :=
  match e with
  | Tick now r1 r2 => tick now r1 r2 s
  | SetAiEnabled b => setAiEnabled b s
  | SetManualSP v => setManualSP v s
  | SetSpLowLimit v => setSpLowLimit v s
  | SetSpHighLimit v => setSpHighLimit v s
  end.

(** The states the engine reaches from [initial]. *)
Inductive reachable : state -> Prop :=
| reachable_initial : reachable initial
| reachable_event e s :
    reachable s -> valid_event e -> reachable (apply_event e s).

(** The setpoint published by the last tick: the [aiSp] field of the
    newest sample. *)
Definition lastAiSp (s : state) : option JS.number :=
  aiSp <$> last (processData s).

(** The operator switches AI off, enters the manual setpoint 100 and one
    tick passes; the limits are still 20 and 80. *)
Definition override_run : state :=
  tick 1000 0.5 0.5 (setManualSP 100 (setAiEnabled false initial)).

(** The sample a tick appends to the history. *)
Definition sampleOf (now : Z) (r1 r2 : Q) (s : state) : ProcessData :=
  let aiSp := nextAiSp (aiEnabled s) (spLowLimit s) (spHighLimit s)
                (currentSP s) (manualSP s) r1 in
  {| timestamp := now; pv := nextPV (currentPV s) aiSp r2;
     sp := aiSp; aiSp := aiSp |}.

(** A sequence of ticks, each with its clock reading and its draws. *)
Fixpoint run (ticks : list (Z * Q * Q)) (s : state) : state :=
  match ticks with
  | [] => s
  | (now, r1, r2) :: rest => run rest (tick now r1 r2 s)
  end.

(** The samples a sequence of ticks produces, oldest first. *)
Fixpoint samples (ticks : list (Z * Q * Q)) (s : state) : list ProcessData :=
  match ticks with
  | [] => []
  | (now, r1, r2) :: rest =>
      sampleOf now r1 r2 s :: samples rest (tick now r1 r2 s)
  end.

(** The history agrees with the current values: it holds at most 50
    samples, each sample has its setpoint in both fields, and the newest
    sample carries the current process variable and setpoint. *)
Definition history_consistent (s : state) : Prop :=
  (length (processData s) <= 50)%nat
  /\ Forall (fun d => sp d = aiSp d) (processData s)
  /\ forall d, last (processData s) = Some d ->
              pv d = currentPV s /\ sp d = currentSP s.

(** The engine is in AI mode with the finite limits [low] and [high] and a
    finite current setpoint. *)
Definition ai_ready (low high : Q) (s : state) : Prop :=
  aiEnabled s = true
  /\ spLowLimit s = JS.Fin low
  /\ spHighLimit s = JS.Fin high
  /\ JS.is_finite (currentSP s) = true.

End ProcessControlDashboard.


(* ================================================================== *)
(** ** The parameter record of the multi-parameter dashboard           *)
(* ================================================================== *)

(** An entry of a parameter's [trend]: [{ timestamp, pv, sp }]. *)
Record TrendPoint : Type := {
  tp_timestamp : Z;
  tp_pv : JS.number;
  tp_sp : JS.number
}.

(** [interface ProcessParameter], declared alike in the dashboard and in
    process-parameter-card.tsx. *)
Record ProcessParameter : Type := {
  id : string;
  name : string;
  unit : string;
  pv : JS.number;
  sp : JS.number;
  aiSp : JS.number;
  lowLimit : JS.number;
  highLimit : JS.number;
  trend : list TrendPoint;
  color : string;
  icon : string
}.

(* ================================================================== *)
(** ** components/process-parameter-card.tsx                           *)
(* ================================================================== *)

Module ProcessParameterCard.

Definition error (parameter : ProcessParameter) : JS.number :=
  (sp parameter - pv parameter)%js.

Definition errorPercentage (parameter : ProcessParameter) : JS.number :=
  (JS.abs (error parameter / sp parameter) * 100)%js.

Definition isInRange (parameter : ProcessParameter) : bool :=
  (JS.abs (error parameter)
   <? (highLimit parameter - lowLimit parameter) * 0.05)%js.

(** The first argument of [handleLimitChange]: ["low" | "high"]. *)
Inductive limitType : Type :=
| Low
| High.

(** [handleLimitChange]: the record handed to [onParameterUpdate];
    [value0] is [value[0]], the position of the slider thumb. *)
Definition handleLimitChange (parameter : ProcessParameter)
    (type : limitType) (value0 : JS.number) : ProcessParameter :=
  match type with
  | Low =>
      {| id := id parameter; name := name parameter; unit := unit parameter;
         pv := pv parameter; sp := sp parameter; aiSp := aiSp parameter;
         lowLimit := value0; highLimit := highLimit parameter;
         trend := trend parameter; color := color parameter;
         icon := icon parameter |}
  | High =>
      {| id := id parameter; name := name parameter; unit := unit parameter;
         pv := pv parameter; sp := sp parameter; aiSp := aiSp parameter;
         lowLimit := lowLimit parameter; highLimit := value0;
         trend := trend parameter; color := color parameter;
         icon := icon parameter |}
  end.

(** The [min] and [max] attributes of the two sliders. *)
Definition lowSliderMin (parameter : ProcessParameter) : JS.number := 0.
Definition lowSliderMax (parameter : ProcessParameter) : JS.number :=
  (highLimit parameter - 10)%js.
Definition highSliderMin (parameter : ProcessParameter) : JS.number :=
  (lowLimit parameter + 10)%js.
Definition highSliderMax (parameter : ProcessParameter) : JS.number :=
  (highLimit parameter * 1.5)%js.

(** The text of the badge and of the status line. *)
Definition badgeText (parameter : ProcessParameter) : string :=
  if isInRange parameter then "OK" else "ADJ".

Definition status_ok : string := "✓ Parameter within optimal range".
Definition status_up : string := "↑ PV below SP - Increase input".
Definition status_down : string := "↓ PV above SP - Decrease input".

Definition statusText (parameter : ProcessParameter) : string :=
  if isInRange parameter then status_ok
  else if (error parameter >? 0)%js then status_up
  else status_down.

End ProcessParameterCard.

(* ================================================================== *)
(** ** VerticalGauge (process-parameter-card.tsx, second part)         *)
(* ================================================================== *)

Module VerticalGauge.

(** The height of the fill, in percent. *)
Definition percentage (value min max : JS.number) : JS.number :=
  JS.max 0 (JS.min 100 ((value - min) / (max - min) * 100))%js.

End VerticalGauge.

(* ================================================================== *)
(** ** FractionMainDisplay                                              *)
(* ================================================================== *)

Module FractionMainDisplay.

Definition error (currentFraction targetFraction : JS.number) : JS.number :=
  (targetFraction - currentFraction)%js.

Definition errorPercentage (currentFraction targetFraction : JS.number)
  : JS.number :=
  (JS.abs (error currentFraction targetFraction / targetFraction) * 100)%js.

(** The attributes [min={70}] and [max={95}] of the input element; its
    change handler does not read them. *)
Definition input_min : Q := 70.
Definition input_max : Q := 95.

Section OnChange.
(** [Number.parseFloat], the platform's parser, and the receiver of
    [onTargetChange]. *)
Context {T : Type}.
Variable parseFloat : string -> JS.number.
Variable onTargetChange : JS.number -> T.

(** [(e) => onTargetChange(Number.parseFloat(e.target.value) || 0)];
    [value] is [e.target.value]. *)
Definition onChange (value : string) : T :=
  onTargetChange (parseFloat value || 0)%js.
End OnChange.

End FractionMainDisplay.

(* ================================================================== *)
(** ** MultiParameterControlDashboard                                   *)
(* ================================================================== *)

Module MultiParameterControlDashboard.

Record FractionData : Type := {
  timestamp : Z;
  value : JS.number;
  target : JS.number
}.

Record state : Type := {
  parameters : list ProcessParameter;
  fractionData : list FractionData;
  currentFraction : JS.number;
  targetFraction : JS.number
}.

(** The first of the eight initial parameters, the only one the source
    spells out. *)
Definition ore : ProcessParameter := {|
  id := "ore"; name := "Ore Feed Rate"; unit := "t/h";
  pv := 125.5; sp := 130.0; aiSp := 130.0;
  lowLimit := 100; highLimit := 200;
  trend := []; color := "amber"; icon := "⛏️"
|}.

(** The same parameter with the low limit moved to 0, the least value of
    its slider, and the setpoint at that limit. *)
Definition ore_sp0 : ProcessParameter := {|
  id := "ore"; name := "Ore Feed Rate"; unit := "t/h";
  pv := 125.5; sp := 0; aiSp := 0;
  lowLimit := 0; highLimit := 200;
  trend := []; color := "amber"; icon := "⛏️"
|}.

(** A dashboard that holds this parameter alone, at the initial fraction
    and target. *)
Definition ore_only : state := {|
  parameters := [ore];
  fractionData := [];
  currentFraction := 78.5;
  targetFraction := 82.0
|}.

(** [parameters[i]?.pv]. *)
Definition pv_at (parameters : list ProcessParameter) (i : nat)
  : option JS.number :=
  pv <$> parameters !! i.

Definition oreInfluence (parameters : list ProcessParameter) : JS.number :=
  (JS.opt_or_else (pv_at parameters 0) 125 / 130 * 20)%js.

Definition waterInfluence (parameters : list ProcessParameter) : JS.number :=
  (JS.opt_or_else (pv_at parameters 1) 45 / 48 * 15)%js.

(** Modelled from the spec: the map callback that advances one parameter
    is elided in the source.  Section 4.2 has each parameter advanced by the
    rule of the single-parameter engine, with its own limits, setpoint and
    process variable, and its trend appended and truncated to 50 entries;
    the trend entry is [{ timestamp, pv, sp }].  The record has no manual
    setpoint: the rule is taken in its AI branch, where the argument for
    the manual setpoint is not read. *)
Definition updateParameter (now : Z) (r1 r2 : Q) (param : ProcessParameter)
  : ProcessParameter :=
  let aiSp' := ProcessControlDashboard.nextAiSp true (lowLimit param)
                 (highLimit param) (sp param) (sp param) r1 in
  let newPV := ProcessControlDashboard.nextPV (pv param) aiSp' r2 in
  {| id := id param; name := name param; unit := unit param;
     pv := newPV; sp := aiSp'; aiSp := aiSp';
     lowLimit := lowLimit param; highLimit := highLimit param;
     trend := appendHistory (trend param)
                {| tp_timestamp := now; tp_pv := newPV; tp_sp := aiSp' |};
     color := color param; icon := icon param |}.

(** The constants of an influence term: the index of the parameter it
    reads, the fallback for its process variable, the reference value and
    the weight. *)
Record influence_constants : Type := {
  index : nat;
  fallbackPv : JS.number;
  referencePv : JS.number;
  weight : JS.number
}.

(** Modelled from the spec: the formulas of the power and of the density
    term are not in the source.  Section 4.2 gives every term the shape of
    the two the source shows: the process variable of its parameter, or a
    hardcoded fallback when the parameter is absent, over a reference
    value, times a weight.  The constants of the two terms stay
    parameters. *)
Definition influence (k : influence_constants)
    (parameters : list ProcessParameter) : JS.number :=
  (JS.opt_or_else (pv_at parameters (index k)) (fallbackPv k)
   / referencePv k * weight k)%js.

(** The constants of the two terms the source shows. *)
Definition ore_constants : influence_constants :=
  {| index := 0; fallbackPv := 125; referencePv := 130; weight := 20 |}.
Definition water_constants : influence_constants :=
  {| index := 1; fallbackPv := 45; referencePv := 48; weight := 15 |}.

Section Fraction.
(** The two influence terms whose formulas the source leaves out. *)
Variables powerInfluence densityInfluence
  : list ProcessParameter -> JS.number.

(** [noise] is the value of the noise term of the tick. *)
Definition calculatedFraction (parameters : list ProcessParameter)
    (noise : JS.number) : JS.number :=
  (oreInfluence parameters + waterInfluence parameters
   + powerInfluence parameters + densityInfluence parameters + noise)%js.

(** The interval callback.  [draws i] are the two random draws used for
    the parameter at index [i].  The fraction is computed from the
    parameters of the closure, those before the update.  The source does
    not show the fields of [newDataPoint]; they are filled as the
    [FractionData] interface names them. *)
Definition tick (now : Z) (draws : nat -> Q * Q) (noise : JS.number)
    (s : state) : state :=
  let fraction := calculatedFraction (parameters s) noise in
  {| parameters :=
       imap (fun i param =>
               updateParameter now (fst (draws i)) (snd (draws i)) param)
            (parameters s);
     fractionData :=
       appendHistory (fractionData s)
         {| timestamp := now; value := fraction;
            target := targetFraction s |};
     currentFraction := fraction;
     targetFraction := targetFraction s |}.
End Fraction.

End MultiParameterControlDashboard.

(* ================================================================== *)
(** ** The interval effect: arming and clearing the timer              *)
(* ================================================================== *)

Module Scheduler.

(** The platform's table of intervals: the identifiers handed out so far
    and those still armed. *)
Record timers : Type := {
  next_id : nat;
  armed : gset nat
}.

Definition setInterval (t : timers) : nat * timers :=
  (next_id t, {| next_id := S (next_id t);
                 armed := {[ next_id t ]} ∪ armed t |}).


(** A mounted dashboard: its state, the interval table, and the interval
    captured by the cleanup function of the effect ([None] before the
    effect has run). *)
Record component : Type := {
  dash : ProcessControlDashboard.state;
  table : timers;
  interval : option nat
}.


(** The body of the effect: [const interval = setInterval(..., 1000)]. *)
Definition start (c : component) : component :=
  let '(i, t) := setInterval (table c) in
  {| dash := dash c; table := t; interval := Some i |}.












End Scheduler.

(* ================================================================== *)
(** ** The Excel processor (Python)                                    *)
(* ================================================================== *)

Module ExcelProcessor.

(** A decimal digit, as [\d] matches it in a file name written in ASCII,
    and its value. *)
Definition is_digit (c : Ascii.ascii) : bool :=
  (48 <=? Ascii.nat_of_ascii c)%nat && (Ascii.nat_of_ascii c <=? 57)%nat.

Definition digit_value (c : Ascii.ascii) : Z :=
  Z.of_nat (Ascii.nat_of_ascii c - 48).

(** The text after the last ["/"] of [p], if [p] has one. *)
Fixpoint after_last_slash (p : string) : option string :=
  match p with
  | EmptyString => None
  | String c rest =>
      match after_last_slash rest with
      | Some tail => Some tail
      | None => if Ascii.eqb c "/"%char then Some rest else None
      end
  end.

(** [os.path.basename] under the POSIX path rules. *)
Definition basename (p : string) : string :=
  default p (after_last_slash p).

(** A match of [20\d{2}] at the start of [s], read by [int]. *)
Definition match_here (s : string) : option Z :=
  match s with
  | String c1 (String c2 (String d1 (String d2 _))) =>
      if Ascii.eqb c1 "2"%char && Ascii.eqb c2 "0"%char && is_digit d1 && is_digit d2
      then Some (2000 + 10 * digit_value d1 + digit_value d2)%Z
      else None
  | _ => None
  end.

(** [re.search(r'20\d{2}', s)]: the leftmost match. *)
Fixpoint search (s : string) : option Z :=
  match match_here s with
  | Some year => Some year
  | None =>
      match s with
      | EmptyString => None
      | String _ rest => search rest
      end
  end.

(** [extract_year_from_filename]; [current_year] is
    [datetime.now().year]. *)
Definition extract_year_from_filename (current_year : Z) (filename : string)
  : Z :=
  let base_filename := basename filename in
  match search base_filename with
  | Some year => year
  | None => current_year
  end.

(** [s] contains a match of [20\d{2}]: the digits [d1], [d2] after "20",
    between [before] and [after]. *)
Definition occurs (s before : string) (d1 d2 : Ascii.ascii) (after : string)
  : Prop :=
  s = (before ++ String "2"%char (String "0"%char (String d1 (String d2 after))))%string
  /\ is_digit d1 = true /\ is_digit d2 = true.

(** Every character of [s] is in ASCII; there [\d] is the ten digits 0
    to 9 and nothing else. *)
Fixpoint ascii_only (s : string) : bool :=
  match s with
  | EmptyString => true
  | String c rest => (Ascii.nat_of_ascii c <? 128)%nat && ascii_only rest
  end.

End ExcelProcessor.

(* ================================================================== *)
(** ** The same formulas in double precision                           *)
(* ================================================================== *)

Module Binary64.
Import PrimFloat.
#[local] Set Warnings "-inexact-float".
#[local] Open Scope float_scope.

(** The process variable update of the interval callback. *)
Definition nextPV (pv aiSp r : float) : float :=
  let error := aiSp - pv in
  pv + error * 0.1 + (r - 0.5) * 1.5.

(** The deviation percentage of the card and of the fraction display:
    [value] is the process variable or the fraction, [goal] the setpoint
    or the target. *)
Definition errorPercentage (value goal : float) : float :=
  let error := goal - value in
  abs (error / goal) * 100.

(** [Math.max] and [Math.min] of two numbers: NaN if an argument is NaN,
    and +0 above -0. *)
Definition max (x y : float) : float :=
  if is_nan x || is_nan y then nan
  else if x <? y then y
  else if y <? x then x
  else if get_sign x then y else x.

Definition min (x y : float) : float :=
  if is_nan x || is_nan y then nan
  else if x <? y then x
  else if y <? x then y
  else if get_sign x then x else y.

(** The state of the single-parameter dashboard and its interval
    callback, in double precision. *)
Record ProcessData : Type := {
  timestamp : Z;
  pv : float;
  sp : float;
  aiSp : float
}.

Record state : Type := {
  processData : list ProcessData;
  currentPV : float;
  currentSP : float;
  aiEnabled : bool;
  spLowLimit : float;
  spHighLimit : float;
  manualSP : float
}.

Definition tick (now : Z) (r1 r2 : float) (s : state) : state :=
  let aiSp :=
    if aiEnabled s
    then max (spLowLimit s) (min (spHighLimit s) (currentSP s + (r1 - 0.5) * 2))
    else manualSP s in
  let newPV := nextPV (currentPV s) aiSp r2 in
  {| processData :=
       appendHistory (processData s)
         {| timestamp := now; pv := newPV; sp := aiSp; aiSp := aiSp |};
     currentPV := newPV;
     currentSP := aiSp;
     aiEnabled := aiEnabled s;
     spLowLimit := spLowLimit s;
     spHighLimit := spHighLimit s;
     manualSP := manualSP s |}.

(** A dashboard in manual mode with the finite process variable -1.7e308
    and the finite manual setpoint 1.7e308. *)
Definition far_apart : state := {|
  processData := [];
  currentPV := -1.7e308;
  currentSP := -1.7e308;
  aiEnabled := false;
  spLowLimit := 20;
  spHighLimit := 80;
  manualSP := 1.7e308
|}.

(** The least and the greatest value of [Math.random()]: 0 and
    1 - 2^-53. *)
Definition random_min : float := 0.
Definition random_max : float := 0x1.fffffffffffffp-1.

(** The bounds of the example of the specification. *)
Definition example_low : float := 45.68 - 0.75.
Definition example_high : float := 45.68 + 0.75.
Definition example_pv : float := 45.2.
Definition example_sp : float := 50.0.

End Binary64.

(* ================================================================== *)
(** ** The vocabulary of the specification                             *)
(* ================================================================== *)

(** The clamp of the specification: [x] limited to [[low, high]]. *)
Definition clamp (x low high : JS.number) : JS.number :=
  if (x <? low)%js then low
  else if (x >? high)%js then high
  else x.

(** [x] lies in the closed interval [[low, high]]. *)
Definition within (x low high : JS.number) : Prop :=
  match x, low, high with
  | JS.Fin a, JS.Fin l, JS.Fin h => l <= a <= h
  | _, _, _ => False
  end.

(** A number of ordinary magnitude: at most 1e300, far inside the range
    of double precision (whose largest finite number is about 1.8e308), so
    that the sums and differences of two such numbers, and their products
    with the constants of the program, do not overflow. *)
Definition ordinary (q : Q) : Prop := Qabs q <= 1e300.

(** The perturbation of the setpoint and the noise of the process variable,
    as functions of the draw of [Math.random()]. *)
Definition perturbation (r : Q) : Q := (r - 0.5) * 2.
Definition noise (r : Q) : Q := (r - 0.5) * 1.5.

(** A buffer [new] is the bounded first-in first-out append of [x] to
    [old]: it has at most 50 entries, [x] is its last entry, it is an end
    segment of [old] followed by [x], and when [old] was full it is [old]
    without its first entry, followed by [x]; that entry is then gone
    from the buffer (entries being pairwise distinct). *)
Definition fifo_append {A : Type} (old : list A) (x : A) (new : list A)
  : Prop :=
  (length new <= 50)%nat
  /\ last new = Some x
  /\ new `suffix_of` (old ++ [x])
  /\ (length old = 50%nat ->
      new = drop 1 old ++ [x]
      /\ forall o, head old = Some o -> NoDup (old ++ [x]) -> o ∉ new).

(* ================================================================== *)
(** ** Facts about the number model                                    *)
(* ================================================================== *)

Section NumberFacts.
Import JS.

Lemma ltb_Fin (a b : Q) : (Fin a <? Fin b)%js = true <-> a < b.
Proof.
  unfold ltb. rewrite Qlt_alt.
  destruct (a ?= b); split; congruence.
Qed.

Lemma ltb_Fin_false (a b : Q) : (Fin a <? Fin b)%js = false <-> b <= a.
Proof.
  rewrite <- not_true_iff_false, ltb_Fin. split; [apply Qnot_lt_le|].
  intros H1 H2. apply (Qlt_not_le _ _ H2 H1).
Qed.

Lemma gtb_Fin (a b : Q) : (Fin a >? Fin b)%js = true <-> b < a.
Proof. apply ltb_Fin. Qed.

Lemma gtb_Fin_false (a b : Q) : (Fin a >? Fin b)%js = false <-> a <= b.
Proof. apply ltb_Fin_false. Qed.

(** No number is both above 2 and below -2. *)
Lemma above_not_below (x : number) :
  (x >? 2)%js = true -> (x <? -2)%js = false.
Proof.
  destruct x as [q| | |]; try reflexivity; try discriminate.
  rewrite gtb_Fin, ltb_Fin_false. lra.
Qed.

Lemma max_Fin (a b : Q) : max (Fin a) (Fin b) = Fin (if Qlt_le_dec a b then b else a).
Proof.
  unfold max; simpl.
  destruct (Qlt_le_dec a b) as [H|H].
  - apply ltb_Fin in H. unfold ltb in H. simpl in H. now rewrite H.
  - apply ltb_Fin_false in H. unfold ltb in H. simpl in H. now rewrite H.
Qed.

Lemma min_Fin (a b : Q) : min (Fin a) (Fin b) = Fin (if Qlt_le_dec b a then b else a).
Proof.
  unfold min; simpl.
  destruct (Qlt_le_dec b a) as [H|H].
  - apply ltb_Fin in H. unfold ltb in H. simpl in H. now rewrite H.
  - apply ltb_Fin_false in H. unfold ltb in H. simpl in H. now rewrite H.
Qed.

End NumberFacts.

(* ================================================================== *)
(** ** The convergence classifier                                      *)
(* ================================================================== *)

Section Classifier.
Import JS ConvergenceIndicator.

Lemma text_of_inj (a b : action) : text_of a = text_of b -> a = b.
Proof. destruct a, b; simpl; intros H; try reflexivity; discriminate. Qed.

(** The text and the icon always show one and the same action. *)
Lemma shows_total (error : number) (isConverged : bool) :
  exists a, shows error isConverged a.
Proof.
  unfold shows, getActionText, getActionIcon.
  destruct isConverged; [now exists Converged|].
  destruct (error >? 2)%js; [now exists Increase|].
  destruct (error <? -2)%js; [now exists Decrease | now exists FineTune].
Qed.

Lemma shows_unique (error : number) (isConverged : bool) (a b : action) :
  shows error isConverged a -> shows error isConverged b -> a = b.
Proof. intros [Ha _] [Hb _]. apply text_of_inj. congruence. Qed.

(** C6.  The classifier is a function of [error] and [isConverged] alone.
    With [isConverged] it answers Converged whatever the error; without, it
    answers Increase exactly when [error > 2], Decrease exactly when
    [error < -2] and FineTune exactly when neither test holds.  The error
    3.5 (the target 82.0 minus the fraction 78.5), not converged, is
    classified Increase. *)
Theorem getAction_classifies (error : number) :
  shows error true Converged
  /\ (shows error false Increase <-> (error >? 2)%js = true)
  /\ (shows error false Decrease <-> (error <? -2)%js = true)
  /\ (shows error false FineTune
      <-> (error >? 2)%js = false /\ (error <? -2)%js = false)
  /\ ~ shows error false Converged
  /\ shows 3.5 false Increase
  /\ shows (FractionMainDisplay.error 78.5 82.0) false Increase.
Proof.
  split; [split; reflexivity|].
  assert (Hx := above_not_below error).
  unfold shows, getActionText, getActionIcon.
  destruct (error >? 2)%js eqn:Hgt; destruct (error <? -2)%js eqn:Hlt;
    try (specialize (Hx eq_refl); discriminate);
    simpl; repeat split; intros; destruct_and?;
    try reflexivity; try discriminate; try tauto;
    intros [_ Hicon]; discriminate Hicon.
Qed.

End Classifier.

(* ================================================================== *)
(** ** The single-parameter update rule                                *)
(* ================================================================== *)

Section UpdateRule.
Import JS ProcessControlDashboard.

Lemma perturbation_bounds (r : Q) :
  is_random r -> -1 <= perturbation r < 1.
Proof. unfold is_random, perturbation. lra. Qed.

Lemma noise_bounds (r : Q) :
  is_random r -> -0.75 <= noise r < 0.75.
Proof. unfold is_random, noise. lra. Qed.

Lemma nextAiSp_enabled (low high sp : Q) (manual : number) (r : Q) :
  nextAiSp true low high sp manual r
  = max low (min high (Fin (sp + perturbation r))).
Proof. reflexivity. Qed.

(** The code's [max low (min high x)] against the clamp of the
    specification, for limits in order. *)
Lemma max_min_clamp (low high x : Q) :
  low <= high ->
  (max low (min high x) ≃ clamp x low high)%js
  /\ within (max low (min high x)) low high.
Proof.
  intros Hlh. rewrite min_Fin.
  assert (Hmax : forall m : Q,
             max low m = Fin (if Qlt_le_dec low m then m else low))
    by (intros m; apply max_Fin).
  unfold clamp.
  destruct (Fin x <? Fin low)%js eqn:Hl;
    [apply ltb_Fin in Hl | apply ltb_Fin_false in Hl];
    (destruct (Fin x >? Fin high)%js eqn:Hg;
      [apply gtb_Fin in Hg | apply gtb_Fin_false in Hg]);
    destruct (Qlt_le_dec x high); rewrite Hmax;
    match goal with |- context [Qlt_le_dec low ?m] =>
      destruct (Qlt_le_dec low m) end;
    simpl; split; lra.
Qed.

(** C1.  With AI enabled and [low < high], the setpoint of the tick is the
    clamp to [[low, high]] of the current setpoint plus a perturbation in
    [[-1, 1]], and it lies in [[low, high]].  Neither the process variable
    nor the manual setpoint enters. *)
Theorem ai_setpoint_clamped (low high currentSp : Q) (manual : number)
    (r : Q) :
  low < high ->
  is_random r ->
  let u := perturbation r in
  -1 <= u <= 1
  /\ (nextAiSp true low high currentSp manual r
      ≃ clamp (Fin currentSp + Fin u) low high)%js
  /\ within (nextAiSp true low high currentSp manual r) low high.
Proof.
  intros Hlh Hr u. split.
  - pose proof (perturbation_bounds r Hr). subst u. lra.
  - rewrite nextAiSp_enabled. apply max_min_clamp. lra.
Qed.

Lemma ai_setpoint_clamped_witness :
  20 < 80 /\ is_random 0.25
  /\ within (nextAiSp true 20 80 50.0 50.0 0.25) 20 80.
Proof.
  assert (H1 : 20 < 80) by reflexivity.
  assert (H2 : is_random 0.25) by (split; [discriminate | reflexivity]).
  split; [exact H1 | split; [exact H2 |]].
  exact (proj2 (proj2 (ai_setpoint_clamped 20 80 50.0 50.0 0.25 H1 H2))).
Defined.

End UpdateRule.

(* ================================================================== *)
(** ** The bounded history                                             *)
(* ================================================================== *)

Section History.
Context {A : Type}.
Implicit Types (prev : list A) (x : A).

(** [slice(-50)] after a push keeps everything but the entries in excess
    of 50, which are taken off the front. *)
Lemma appendHistory_drop prev x :
  appendHistory prev x = drop (S (length prev) - 50) prev ++ [x].
Proof.
  unfold appendHistory, JS.slice.
  rewrite length_app. simpl length.
  replace (Z.to_nat _) with (S (length prev) - 50)%nat by (simpl; lia).
  apply drop_app_le. lia.
Qed.

Lemma appendHistory_short prev x :
  (length prev < 50)%nat -> appendHistory prev x = prev ++ [x].
Proof.
  intros H. rewrite appendHistory_drop.
  replace (S (length prev) - 50)%nat with 0%nat by lia. reflexivity.
Qed.

Lemma appendHistory_full prev x :
  length prev = 50%nat -> appendHistory prev x = drop 1 prev ++ [x].
Proof. intros H. rewrite appendHistory_drop, H. reflexivity. Qed.

Lemma appendHistory_length prev x :
  length (appendHistory prev x) = Nat.min 50 (S (length prev)).
Proof.
  rewrite appendHistory_drop, length_app, length_drop.
  change (length [x]) with 1%nat. lia.
Qed.

Lemma appendHistory_last prev x : last (appendHistory prev x) = Some x.
Proof. rewrite appendHistory_drop. apply last_snoc. Qed.

Lemma appendHistory_suffix prev x :
  appendHistory prev x `suffix_of` (prev ++ [x]).
Proof.
  rewrite appendHistory_drop. apply suffix_app, suffix_drop.
Qed.

(** The entry at position [i] after an append to a full buffer is the one
    that was at position [i + 1]: every entry moves one place to the
    front. *)
Lemma appendHistory_shift prev x (i : nat) :
  length prev = 50%nat -> (i < 49)%nat ->
  appendHistory prev x !! i = prev !! S i.
Proof.
  intros H Hi. rewrite appendHistory_full by done.
  rewrite lookup_app_l by (rewrite length_drop; lia).
  apply lookup_drop.
Qed.

Lemma appendHistory_fifo prev x : fifo_append prev x (appendHistory prev x).
Proof.
  repeat split.
  - rewrite appendHistory_length. lia.
  - apply appendHistory_last.
  - apply appendHistory_suffix.
  - now apply appendHistory_full.
  - intros o Ho Hnd. rewrite appendHistory_full by done.
    destruct prev as [|o' rest]; [discriminate|].
    injection Ho as ->. simpl. rewrite drop_0.
    change ((o :: rest) ++ [x]) with (o :: (rest ++ [x])) in Hnd.
    now apply NoDup_cons in Hnd.
Qed.

End History.

Section Buffers.
Import ProcessControlDashboard.

(** C3.  Each of the three histories (the trend of the single-parameter
    dashboard, the trend of every parameter, the fraction trend) is
    updated at a tick by a bounded first-in first-out append: the buffer
    never has more than 50 entries, the new sample is its last entry, and
    an append to a buffer of 50 drops exactly its oldest entry. *)
Theorem history_bounded_fifo :
  (forall now r1 r2 s,
      exists x, fifo_append (processData s) x
                  (processData (tick now r1 r2 s)))
  /\ (forall power density now draws noise s,
        exists x,
          fifo_append (MultiParameterControlDashboard.fractionData s) x
            (MultiParameterControlDashboard.fractionData
               (MultiParameterControlDashboard.tick power density now draws
                  noise s)))
  /\ (forall power density now draws noise s (i : nat) param,
        MultiParameterControlDashboard.parameters s !! i = Some param ->
        exists param' x,
          MultiParameterControlDashboard.parameters
            (MultiParameterControlDashboard.tick power density now draws
               noise s) !! i = Some param'
          /\ fifo_append (trend param) x (trend param')).
Proof.
  split; [|split].
  - intros. eexists. apply appendHistory_fifo.
  - intros. eexists. apply appendHistory_fifo.
  - intros power density now draws nz s i param Hi.
    eexists _, _. split.
    + simpl. rewrite list_lookup_imap, Hi. reflexivity.
    + apply appendHistory_fifo.
Qed.

Lemma history_bounded_fifo_witness :
  MultiParameterControlDashboard.parameters
    MultiParameterControlDashboard.ore_only !! 0%nat
  = Some MultiParameterControlDashboard.ore
  /\ exists param' x,
      MultiParameterControlDashboard.parameters
        (MultiParameterControlDashboard.tick (fun _ => 0) (fun _ => 0) 0%Z
           (fun _ => (0, 0)) 0 MultiParameterControlDashboard.ore_only)
      !! 0%nat = Some param'
      /\ fifo_append (trend MultiParameterControlDashboard.ore) x
           (trend param').
Proof.
  split; [reflexivity|].
  exact (proj2 (proj2 history_bounded_fifo) (fun _ => 0) (fun _ => 0) 0%Z
           (fun _ => (0, 0)) 0 MultiParameterControlDashboard.ore_only
           0%nat MultiParameterControlDashboard.ore eq_refl).
Defined.

(** C4.  With AI disabled the setpoint of the tick is the manual setpoint
    as supplied, whatever the limits: no clamp is applied.  The tick
    publishes it unchanged, as the current setpoint and in the newest
    sample; a manual setpoint of 100 with the limits 20 and 80 stays
    100. *)
Theorem manual_setpoint_verbatim (low high currentSp manual : JS.number)
    (now : Z) (r1 r2 : Q) (s : state) :
  nextAiSp false low high currentSp manual r1 = manual
  /\ currentSP (tick now r1 r2 (setAiEnabled false s)) = manualSP s
  /\ lastAiSp (tick now r1 r2 (setAiEnabled false s)) = Some (manualSP s)
  /\ nextAiSp false 20 80 currentSp 100 r1 = 100
  /\ ~ within 100 20 80.
Proof.
  split; [reflexivity|]. split; [reflexivity|]. split.
  - unfold lastAiSp. simpl. now rewrite appendHistory_last.
  - split; [reflexivity|]. simpl. intros [_ H]. revert H. apply Qlt_not_le.
    reflexivity.
Qed.

End Buffers.

(* ================================================================== *)
(** ** The setpoint over runs of the engine                            *)
(* ================================================================== *)

Section Setpoint.
Import JS ProcessControlDashboard.

Lemma within_finite (x low high : number) :
  within x low high -> is_finite x = true.
Proof. destruct x; simpl; tauto. Qed.

Lemma tick_ai_ready (low high : Q) (now : Z) (r1 r2 : Q) (s : state) :
  low <= high ->
  ai_ready low high s ->
  ai_ready low high (tick now r1 r2 s)
  /\ within (currentSP (tick now r1 r2 s)) low high
  /\ lastAiSp (tick now r1 r2 s) = Some (currentSP (tick now r1 r2 s)).
Proof.
  intros Hlh (Hai & Hlo & Hhi & Hsp).
  destruct (currentSP s) as [q| | |] eqn:Hq; try discriminate.
  assert (Hw : within (currentSP (tick now r1 r2 s)) low high).
  { simpl. rewrite Hai, Hlo, Hhi, Hq.
    apply (max_min_clamp low high (q + perturbation r1) Hlh). }
  split; [|split].
  - repeat split; try assumption. now apply within_finite in Hw.
  - exact Hw.
  - unfold lastAiSp. simpl. now rewrite appendHistory_last.
Qed.

(** The run of C5 that leaves the limits: AI off, manual setpoint 100. *)
Lemma override_run_reachable : reachable override_run.
Proof.
  unfold override_run.
  apply (reachable_event (Tick 1000 0.5 0.5)).
  - apply (reachable_event (SetManualSP 100)); [|exact I].
    apply (reachable_event (SetAiEnabled false)); [|exact I].
    apply reachable_initial.
  - repeat split; try discriminate; reflexivity.
Qed.

(** C5, refuted as stated: a reachable state of the engine whose newest
    sample has the [aiSp] 100, above the high limit 80 in force. *)
Lemma aiSp_leaves_limits :
  reachable override_run
  /\ aiEnabled override_run = false
  /\ spLowLimit override_run = 20
  /\ spHighLimit override_run = 80
  /\ lastAiSp override_run = Some (Fin 100)
  /\ ~ within 100 (spLowLimit override_run) (spHighLimit override_run).
Proof.
  split; [apply override_run_reachable|].
  repeat (split; [reflexivity|]).
  simpl. intros [_ H]. revert H. apply Qlt_not_le. reflexivity.
Qed.

(** C5, amended.  In AI mode, with finite limits [low <= high] and a finite
    current setpoint, the setpoint after every non-empty sequence of ticks
    lies in [[low, high]], and it is the [aiSp] of the newest sample. *)
Theorem ai_mode_setpoint_within (low high : Q) (ticks : list (Z * Q * Q))
    (s : state) :
  low <= high ->
  ai_ready low high s ->
  ticks <> [] ->
  within (currentSP (run ticks s)) low high
  /\ lastAiSp (run ticks s) = Some (currentSP (run ticks s)).
Proof.
  intros Hlh. revert s.
  induction ticks as [|[[now r1] r2] rest IH]; intros s Hs Hne; [done|].
  destruct (tick_ai_ready low high now r1 r2 s Hlh Hs) as (Hs' & Hw & Hl).
  destruct rest as [|t rest'].
  - simpl. auto.
  - change (run ((now, r1, r2) :: t :: rest') s)
      with (run (t :: rest') (tick now r1 r2 s)).
    apply IH; [assumption | discriminate].
Qed.

Lemma ai_mode_setpoint_within_witness :
  20 <= 80
  /\ ai_ready 20 80 initial
  /\ [(1000%Z, 0.9, 0.1); (2000%Z, 0.9, 0.1)] <> []
  /\ within (currentSP (run [(1000%Z, 0.9, 0.1); (2000%Z, 0.9, 0.1)] initial))
       20 80.
Proof.
  assert (H1 : 20 <= 80) by discriminate.
  assert (H2 : ai_ready 20 80 initial) by (repeat split).
  assert (H3 : [(1000%Z, 0.9, 0.1); (2000%Z, 0.9, 0.1)] <> [])
    by discriminate.
  split; [exact H1 | split; [exact H2 | split; [exact H3 |]]].
  exact (proj1 (ai_mode_setpoint_within 20 80 _ initial H1 H2 H3)).
Defined.

End Setpoint.

(* ================================================================== *)
(** ** The process variable of the tick                                *)
(* ================================================================== *)

Section ProcessVariable.
Import JS ProcessControlDashboard.

(** C2, refuted as stated: both the process variable and the setpoint of
    the tick are finite, -1.7e308 and 1.7e308, and the tick leaves the
    process variable Infinity, in the current value and in the newest
    sample: the difference [aiSp - pv] has left the range of double
    precision. *)
Lemma pv_update_overflows :
  PrimFloat.is_finite (Binary64.currentPV Binary64.far_apart) = true
  /\ Binary64.aiEnabled Binary64.far_apart = false
  /\ PrimFloat.is_finite (Binary64.manualSP Binary64.far_apart) = true
  /\ Binary64.currentSP
       (Binary64.tick 1000 Binary64.random_min Binary64.random_max
          Binary64.far_apart)
     = Binary64.manualSP Binary64.far_apart
  /\ Binary64.currentPV
       (Binary64.tick 1000 Binary64.random_min Binary64.random_max
          Binary64.far_apart)
     = PrimFloat.infinity
  /\ Binary64.pv
     <$> last (Binary64.processData
                 (Binary64.tick 1000 Binary64.random_min Binary64.random_max
                    Binary64.far_apart))
     = Some PrimFloat.infinity.
Proof. repeat split; vm_compute; reflexivity. Qed.

(** C2, amended.  For a process variable [p] and a setpoint of the tick
    [a] of ordinary magnitude, one tick leaves the process variable
    [p + (a - p) * 0.1 + n] with a noise [n] in [[-0.75, 0.75]], as the
    current value and in the newest sample, and the setpoint [a] as the
    current setpoint.  From 45.2 towards 50.0 the new process variable
    lies in [[45.68 - 0.75, 45.68 + 0.75]].  (The arithmetic is exact
    here; the program rounds each operation to double precision.) *)
Theorem tick_pv_first_order_lag (now : Z) (r1 r2 : Q) (s : state)
    (p a : Q) :
  currentPV s = Fin p ->
  nextAiSp (aiEnabled s) (spLowLimit s) (spHighLimit s) (currentSP s)
    (manualSP s) r1 = Fin a ->
  ordinary p -> ordinary a ->
  is_random r2 ->
  let n := noise r2 in
  -0.75 <= n <= 0.75
  /\ currentPV (tick now r1 r2 s) = Fin (p + (a - p) * 0.1 + n)
  /\ pv <$> last (processData (tick now r1 r2 s))
     = Some (Fin (p + (a - p) * 0.1 + n))
  /\ currentSP (tick now r1 r2 s) = Fin a
  /\ (p == 45.2 -> a == 50.0 ->
      45.68 - 0.75 <= p + (a - p) * 0.1 + n <= 45.68 + 0.75).
Proof.
  intros Hp Ha _ _ Hr n. pose proof (noise_bounds r2 Hr) as Hn.
  split; [subst n; lra|].
  assert (Hpv : currentPV (tick now r1 r2 s) = Fin (p + (a - p) * 0.1 + n)).
  { simpl. rewrite Ha, Hp. reflexivity. }
  split; [exact Hpv|]. split.
  - simpl. rewrite appendHistory_last. simpl. rewrite Ha, Hp. reflexivity.
  - split; [simpl; exact Ha|]. intros H1 H2. subst n. lra.
Qed.

Lemma tick_pv_first_order_lag_witness :
  currentPV initial = Fin 45.2
  /\ nextAiSp (aiEnabled initial) (spLowLimit initial) (spHighLimit initial)
       (currentSP initial) (manualSP initial) 0.5 = Fin (50.0 + (0.5 - 0.5) * 2)
  /\ ordinary 45.2 /\ ordinary (50.0 + (0.5 - 0.5) * 2)
  /\ is_random 0
  /\ currentPV (tick 1000 0.5 0 initial)
     = Fin (45.2 + (50.0 + (0.5 - 0.5) * 2 - 45.2) * 0.1 + noise 0)
  /\ 45.68 - 0.75
     <= 45.2 + (50.0 + (0.5 - 0.5) * 2 - 45.2) * 0.1 + noise 0
     <= 45.68 + 0.75.
Proof.
  assert (H1 : currentPV initial = Fin 45.2) by reflexivity.
  assert (H2 : nextAiSp (aiEnabled initial) (spLowLimit initial)
                 (spHighLimit initial) (currentSP initial)
                 (manualSP initial) 0.5 = Fin (50.0 + (0.5 - 0.5) * 2))
    by reflexivity.
  assert (H3 : ordinary 45.2) by (vm_compute; discriminate).
  assert (H4 : ordinary (50.0 + (0.5 - 0.5) * 2)) by (vm_compute; discriminate).
  assert (H5 : is_random 0) by (split; [discriminate | reflexivity]).
  pose proof (tick_pv_first_order_lag 1000 0.5 0 initial _ _ H1 H2 H3 H4 H5)
    as (_ & T2 & _ & _ & T5).
  split; [exact H1 | split; [exact H2 | split; [exact H3 |]]].
  split; [exact H4 | split; [exact H5 | split; [exact T2 |]]].
  apply T5; reflexivity.
Defined.

End ProcessVariable.

(* ================================================================== *)
(** ** The deviation percentages                                       *)
(* ================================================================== *)

Section Deviation.
Import JS.

(** [|e / z| * 100] for a divisor [z] that is 0: NaN when [e] is 0, and
    Infinity otherwise. *)
Lemma abs_div_zero (e z : Q) :
  z == 0 ->
  (abs (Fin e / Fin z) * 100)%js = if Qeq_bool e 0 then NaN else PInf.
Proof.
  intros Hz. apply Qeq_bool_iff in Hz. simpl. rewrite Hz.
  unfold sgn. destruct (Qeq_bool e 0) eqn:He.
  - apply Qeq_bool_iff, Qeq_alt in He. now rewrite He.
  - destruct (e ?= 0) eqn:Hc; try reflexivity.
    apply Qeq_alt, Qeq_bool_iff in Hc. congruence.
Qed.

(** C7, refuted as stated: with the setpoint 0 the card computes the
    deviation Infinity, and so does the fraction display with the target
    0 (the value its own input hands over for a text that does not
    parse); with the fraction 0 as well it computes NaN.  No sentinel
    stands in for the division by 0. *)
Lemma deviation_not_guarded :
  sp MultiParameterControlDashboard.ore_sp0 = 0
  /\ ProcessParameterCard.errorPercentage MultiParameterControlDashboard.ore_sp0
     = PInf
  /\ FractionMainDisplay.errorPercentage 78.5 0 = PInf
  /\ FractionMainDisplay.errorPercentage 0 0 = NaN
  /\ is_finite PInf = false
  /\ is_finite NaN = false.
Proof. repeat split. Qed.

(** C7, amended.  When the divisor (the setpoint of the card, the target
    of the fraction display) is 0 and the other operand is finite, the
    deviation percentage is computed by the same unguarded division: it is
    Infinity when the error is not 0 and NaN when it is 0. *)
Theorem deviation_by_zero (z v : Q) (parameter : ProcessParameter) :
  z == 0 ->
  sp parameter = Fin z ->
  pv parameter = Fin v ->
  ProcessParameterCard.errorPercentage parameter
  = (if Qeq_bool v 0 then NaN else PInf)
  /\ FractionMainDisplay.errorPercentage v z
     = (if Qeq_bool v 0 then NaN else PInf).
Proof.
  intros Hz Hsp Hpv.
  assert (He : Qeq_bool (z - v) 0 = Qeq_bool v 0).
  { destruct (Qeq_bool v 0) eqn:Hv.
    - apply Qeq_bool_iff in Hv. apply Qeq_bool_iff. lra.
    - apply not_true_iff_false. intros H. apply Qeq_bool_iff in H.
      apply not_true_iff_false in Hv. apply Hv, Qeq_bool_iff. lra. }
  unfold ProcessParameterCard.errorPercentage, ProcessParameterCard.error,
    FractionMainDisplay.errorPercentage, FractionMainDisplay.error.
  rewrite Hsp, Hpv.
  change (Fin z - Fin v)%js with (Fin (z - v)).
  rewrite (abs_div_zero (z - v) z Hz), He. split; reflexivity.
Qed.

Lemma deviation_by_zero_witness :
  0 == 0
  /\ sp MultiParameterControlDashboard.ore_sp0 = Fin 0
  /\ pv MultiParameterControlDashboard.ore_sp0 = Fin 125.5
  /\ ProcessParameterCard.errorPercentage MultiParameterControlDashboard.ore_sp0
     = PInf.
Proof.
  assert (H : 0 == 0) by reflexivity.
  split; [exact H | split; [reflexivity | split; [reflexivity |]]].
  exact (proj1 (deviation_by_zero 0 125.5
                  MultiParameterControlDashboard.ore_sp0 H eq_refl eq_refl)).
Defined.

End Deviation.

(* ================================================================== *)
(** ** The fraction aggregation                                        *)
(* ================================================================== *)

Section Aggregation.
Import JS MultiParameterControlDashboard.
Variables powerInfluence densityInfluence : list ProcessParameter -> number.

(** The fallback also stands in for a process variable that is present but
    falsy (0 or NaN). *)
Lemma fallback_on_falsy (param : ProcessParameter)
    (rest : list ProcessParameter) :
  truthy (pv param) = false ->
  oreInfluence (param :: rest) = oreInfluence [].
Proof.
  intros H. unfold oreInfluence, pv_at. simpl. unfold or_else.
  now rewrite H.
Qed.

Lemma empty_at_0 (params : list ProcessParameter) :
  params !! 0%nat = None -> params = [].
Proof. now destruct params. Qed.

Lemma influence_absent (k : influence_constants)
    (params : list ProcessParameter) :
  params !! index k = None ->
  influence k params = (fallbackPv k / referencePv k * weight k)%js.
Proof. intros H. unfold influence, pv_at. now rewrite H. Qed.

Lemma influence_present (k : influence_constants)
    (params : list ProcessParameter) (param : ProcessParameter) :
  params !! index k = Some param ->
  truthy (pv param) = true ->
  influence k params = (pv param / referencePv k * weight k)%js.
Proof.
  intros H Ht. unfold influence, pv_at. rewrite H. simpl.
  unfold or_else. now rewrite Ht.
Qed.

End Aggregation.

Section Fallback.
Import JS MultiParameterControlDashboard.

(** C8.  Every influence term takes the fallback of its parameter when the
    array has no entry at its index, and the process variable of the entry
    when there is one (with a truthy value).  For every array, of any
    length, the fraction is the sum of the four terms and the noise: with
    the ore alone in the array it is made of the ore's own term and of the
    fallback term of the water (45), and with an empty array of the
    fallback terms of both (125 and 45).  The tick publishes this sum as
    the current fraction and in the newest sample of the fraction trend:
    the aggregation has no failing case. *)
Theorem fraction_with_missing_parameters (power density : influence_constants)
    (params : list ProcessParameter) (fluctuation : number) :
  (forall k, params !! index k = None ->
     influence k params = (fallbackPv k / referencePv k * weight k)%js)
  /\ (forall k param, params !! index k = Some param ->
        truthy (pv param) = true ->
        influence k params = (pv param / referencePv k * weight k)%js)
  /\ calculatedFraction (influence power) (influence density) params
       fluctuation
     = (influence ore_constants params + influence water_constants params
        + influence power params + influence density params
        + fluctuation)%js
  /\ (params !! 0%nat = None ->
      calculatedFraction (influence power) (influence density) params
        fluctuation
      = (Fin (125 / 130 * 20) + Fin (45 / 48 * 15)
         + fallbackPv power / referencePv power * weight power
         + fallbackPv density / referencePv density * weight density
         + fluctuation)%js)
  /\ (forall param, params = [param] -> truthy (pv param) = true ->
      calculatedFraction (influence power) (influence density) params
        fluctuation
      = (pv param / 130 * 20 + Fin (45 / 48 * 15)
         + influence power [param] + influence density [param]
         + fluctuation)%js)
  /\ (forall now draws s, parameters s = params ->
      let s' := tick (influence power) (influence density) now draws
                  fluctuation s in
      currentFraction s'
      = (influence ore_constants params + influence water_constants params
         + influence power params + influence density params
         + fluctuation)%js
      /\ value <$> last (fractionData s') = Some (currentFraction s')).
Proof.
  split; [intros k; apply influence_absent|].
  split; [intros k param; apply influence_present|].
  split; [reflexivity|]. split; [|split].
  - intros H. apply empty_at_0 in H. subst params. reflexivity.
  - intros param -> Ht. unfold calculatedFraction.
    change (oreInfluence [param]) with (influence ore_constants [param]).
    now rewrite (influence_present ore_constants [param] param eq_refl Ht).
  - intros now draws s Hs s'. subst s'. split.
    + simpl. rewrite Hs. reflexivity.
    + simpl. now rewrite appendHistory_last.
Qed.

Lemma fraction_with_missing_parameters_witness :
  [ore] !! index water_constants = None
  /\ influence water_constants [ore] = Fin (45 / 48 * 15)
  /\ [ore] = [ore] /\ truthy (pv ore) = true
  /\ calculatedFraction (influence water_constants)
       (influence water_constants) [ore] 0
     = (Fin (125.5 / 130 * 20) + Fin (45 / 48 * 15) + Fin (45 / 48 * 15)
        + Fin (45 / 48 * 15) + 0)%js.
Proof.
  pose proof (fraction_with_missing_parameters water_constants
                water_constants [ore] 0) as (T1 & _ & _ & _ & T5 & _).
  split; [reflexivity|].
  split; [exact (T1 water_constants eq_refl)|].
  split; [reflexivity | split; [reflexivity|]].
  exact (T5 ore eq_refl eq_refl).
Defined.

End Fallback.

(* ================================================================== *)
(** ** The target input                                                *)
(* ================================================================== *)

Section TargetInput.
Import JS FractionMainDisplay.

(** C10.  When [Number.parseFloat] yields NaN for the text of the input,
    the change handler calls [onTargetChange] with 0: the text is not
    rejected, and 0 is outside the range 70 to 95 the input declares. *)
Theorem unparsable_target_becomes_zero {T : Type}
    (parseFloat : string -> number) (onTargetChange : number -> T)
    (value : string) :
  parseFloat value = NaN ->
  onChange parseFloat onTargetChange value = onTargetChange (Fin 0)
  /\ ~ (input_min <= 0 <= input_max).
Proof.
  intros H. unfold onChange. rewrite H. split; [reflexivity|].
  unfold input_min. lra.
Qed.

Lemma unparsable_target_becomes_zero_witness :
  (fun s : string => if String.eqb s "82.5" then Fin 82.5 else NaN) "abc"
  = NaN
  /\ onChange (fun s : string => if String.eqb s "82.5" then Fin 82.5 else NaN)
       (fun x : number => x) "abc" = Fin 0.
Proof.
  split; [reflexivity|].
  exact (proj1 (unparsable_target_becomes_zero
                  (fun s : string =>
                     if String.eqb s "82.5" then Fin 82.5 else NaN)
                  (fun x : number => x) "abc" eq_refl)).
Defined.

End TargetInput.

(* ================================================================== *)
(** ** Arming and clearing the interval                                *)
(* ================================================================== *)

Section Timer.
Import Scheduler.
















End Timer.

(* ================================================================== *)
(** ** The examples in double precision                                *)
(* ================================================================== *)

Section DoublePrecision.
Import PrimFloat Binary64.

(** The example of the process variable update holds in double precision
    at both ends of the range of the draw. *)
Lemma binary64_pv_example :
  (example_low <=? nextPV example_pv example_sp random_min)%float = true
  /\ (nextPV example_pv example_sp random_min <=? example_high)%float = true
  /\ (example_low <=? nextPV example_pv example_sp random_max)%float = true
  /\ (nextPV example_pv example_sp random_max <=? example_high)%float = true.
Proof. repeat split; vm_compute; reflexivity. Qed.

(** A division by 0 gives Infinity or NaN in double precision as in the
    number model. *)
Lemma binary64_deviation_by_zero :
  errorPercentage 125.5 0 = infinity
  /\ is_nan (errorPercentage 0 0) = true.
Proof. split; vm_compute; reflexivity. Qed.

End DoublePrecision.

(* ================================================================== *)
(** ** The badge, the progress bar and the guidance of the indicator   *)
(* ================================================================== *)

Section Indicator.
Import JS ConvergenceIndicator.

(** An absolute value above 5 is a value above 5 or below -5. *)
Lemma Qabs_above (q b : Q) : b < Qabs q -> b < q \/ q < - b.
Proof.
  intros H. destruct (Qlt_le_dec q 0) as [Hq|Hq].
  - right. rewrite (Qabs_neg q) in H by lra. lra.
  - left. now rewrite (Qabs_pos q) in H.
Qed.

Lemma abs_above_five (x : number) :
  (abs x >? 5)%js = true -> (x >? 2)%js = true \/ (x <? -2)%js = true.
Proof.
  destruct x as [q| | |]; simpl; try discriminate; auto.
  intros H. apply (gtb_Fin (Qabs q) 5), Qabs_above in H.
  destruct H as [H|H]; [left; apply gtb_Fin | right; apply ltb_Fin]; lra.
Qed.

(** X1.  The badge is "default" exactly when the process is converged.
    It is "destructive" only together with one of the two actuator
    actions, never with Fine Tuning; with Fine Tuning it is
    "secondary". *)
Theorem badge_follows_action (error : number) (isConverged : bool) :
  (getActionColor error isConverged = "default" <-> isConverged = true)
  /\ (getActionColor error isConverged = "destructive" ->
      shows error isConverged Increase \/ shows error isConverged Decrease)
  /\ (shows error isConverged FineTune ->
      getActionColor error isConverged = "secondary").
Proof.
  unfold getActionColor, shows, getActionText, getActionIcon.
  destruct isConverged.
  { split; [tauto|]. split; [discriminate|]. intros [H _]. discriminate. }
  pose proof (abs_above_five error) as Habs.
  pose proof (above_not_below error) as Hexcl.
  destruct (abs error >? 5)%js.
  - split; [split; discriminate|].
    destruct (Habs eq_refl) as [H|H].
    + rewrite H. split; [auto|]. intros [? _]. discriminate.
    + destruct (error >? 2)%js; [specialize (Hexcl eq_refl); congruence|].
      rewrite H. split; [auto|]. intros [? _]. discriminate.
  - split; [split; discriminate|]. split; [discriminate | reflexivity].
Qed.

Lemma badge_follows_action_witness :
  getActionColor (-6) false = "destructive"
  /\ (shows (-6) false Increase \/ shows (-6) false Decrease).
Proof.
  split; [reflexivity|].
  exact (proj1 (proj2 (badge_follows_action (-6) false)) eq_refl).
Defined.

(** X2.  The progress bar shows five times the magnitude of a finite
    error, capped at 100: it is full from the magnitude 20 on, and always
    between 0 and 100.  An infinite error fills it; NaN stays NaN. *)
Theorem progress_capped (e : Q) :
  within (progressValue e) 0 100
  /\ (Qabs e < 20 -> progressValue e = Fin (Qabs e * 5))
  /\ (20 <= Qabs e -> progressValue e = Fin 100)
  /\ progressValue PInf = Fin 100
  /\ progressValue NInf = Fin 100
  /\ progressValue NaN = NaN.
Proof.
  pose proof (Qabs_nonneg e) as Hpos.
  unfold progressValue.
  change (abs e * 5)%js with (Fin (Qabs e * 5)).
  rewrite min_Fin.
  destruct (Qlt_le_dec (Qabs e * 5) 100) as [H|H]; simpl;
    repeat split; intros; try reflexivity; try lra.
Qed.

Lemma progress_capped_witness :
  Qabs 3.5 < 20 /\ progressValue 3.5 = Fin (Qabs 3.5 * 5).
Proof.
  assert (H : Qabs 3.5 < 20) by reflexivity.
  split; [exact H|].
  exact (proj1 (proj2 (progress_capped 3.5)) H).
Defined.

(** X3.  The guidance follows the action: it says "Increase" with the
    action Increase and "Decrease" with the action Decrease.  Not
    converged, it says "PV below SP" exactly when the error is above 0;
    an error of 0 or NaN reads "PV above SP". *)
Theorem guidance_follows_action (error : number) (isConverged : bool) :
  (shows error isConverged Converged ->
   guidanceText error isConverged = guidance_ok)
  /\ (shows error isConverged Increase ->
      guidanceText error isConverged = guidance_up)
  /\ (shows error isConverged Decrease ->
      guidanceText error isConverged = guidance_down)
  /\ (guidanceText error false = guidance_up <-> (error >? 0)%js = true)
  /\ guidanceText 0 false = guidance_down
  /\ guidanceText NaN false = guidance_down.
Proof.
  assert (Hup : (error >? 2)%js = true -> (error >? 0)%js = true).
  { destruct error as [q| | |]; try discriminate; try reflexivity.
    rewrite !gtb_Fin. lra. }
  assert (Hdown : (error <? -2)%js = true -> (error >? 0)%js = false).
  { destruct error as [q| | |]; try discriminate; try reflexivity.
    rewrite ltb_Fin, gtb_Fin_false. lra. }
  unfold shows, guidanceText, getActionText, getActionIcon.
  destruct isConverged.
  - repeat split; try reflexivity; try (intros [_ H]; discriminate H);
      destruct (error >? 0)%js; try discriminate; try reflexivity.
  - destruct (error >? 2)%js.
    + rewrite (Hup eq_refl).
      repeat split; try reflexivity; intros [_ H]; discriminate H.
    + destruct (error <? -2)%js.
      * rewrite (Hdown eq_refl).
        repeat split; try reflexivity; try discriminate;
          intros [_ H]; discriminate H.
      * destruct (error >? 0)%js;
          repeat split; try reflexivity; try discriminate;
          intros [_ H]; discriminate H.
Qed.

Lemma guidance_follows_action_witness :
  shows 3.5 false Increase /\ guidanceText 3.5 false = guidance_up.
Proof.
  assert (H : shows 3.5 false Increase) by (split; reflexivity).
  split; [exact H|].
  exact (proj1 (proj2 (guidance_follows_action 3.5 false)) H).
Defined.

End Indicator.

(* ================================================================== *)
(** ** The gauge                                                       *)
(* ================================================================== *)

Section Gauge.
Import JS VerticalGauge.

Lemma div_Fin (a d : Q) : ~ d == 0 -> (Fin a / Fin d)%js = Fin (a / d).
Proof.
  intros Hd. simpl. destruct (Qeq_bool d 0) eqn:H; [|reflexivity].
  now apply Qeq_bool_iff in H.
Qed.

(** The position of [value] in the range, as a fraction of its width. *)
Lemma fraction_of_range (value mn mx : Q) :
  mn < mx ->
  (value <= mn -> (value - mn) / (mx - mn) <= 0)
  /\ (mx <= value -> 1 <= (value - mn) / (mx - mn))
  /\ (mn <= value -> 0 <= (value - mn) / (mx - mn))
  /\ (value <= mx -> (value - mn) / (mx - mn) <= 1).
Proof.
  intros H. assert (Hd : 0 < mx - mn) by lra.
  repeat split; intros Hv.
  - apply Qle_shift_div_r; [assumption | lra].
  - apply Qle_shift_div_l; [assumption | lra].
  - apply Qle_shift_div_l; [assumption | lra].
  - apply Qle_shift_div_r; [assumption | lra].
Qed.

(** X4.  For a value and a range [min < max] of ordinary magnitude the
    fill of the gauge is always between 0 and 100 percent: empty for a
    value at or below [min], full for a value at or above [max], and in
    between the position of the value in the range (exact here, rounded
    to double precision by the program). *)
Theorem gauge_fill_bounded (value mn mx : Q) :
  ordinary value -> ordinary mn -> ordinary mx ->
  mn < mx ->
  within (percentage value mn mx) 0 100
  /\ (value <= mn -> (percentage value mn mx ≃ 0)%js)
  /\ (mx <= value -> (percentage value mn mx ≃ 100)%js)
  /\ (mn <= value <= mx ->
      (percentage value mn mx ≃ Fin ((value - mn) / (mx - mn) * 100))%js).
Proof.
  intros _ _ _ H.
  destruct (fraction_of_range value mn mx H) as (F1 & F2 & F3 & F4).
  unfold percentage.
  change (Fin value - Fin mn)%js with (Fin (value - mn)).
  change (Fin mx - Fin mn)%js with (Fin (mx - mn)).
  rewrite div_Fin by lra.
  set (q := (value - mn) / (mx - mn)) in *.
  change (Fin q * Fin 100)%js with (Fin (q * 100)).
  rewrite min_Fin, max_Fin.
  destruct (Qlt_le_dec (q * 100) 100) as [Hm|Hm];
    match goal with |- context [Qlt_le_dec 0 ?m] =>
      destruct (Qlt_le_dec 0 m) as [Hz|Hz] end;
    simpl; repeat split; intros; try lra;
    try (specialize (F1 ltac:(lra)); lra);
    try (specialize (F2 ltac:(lra)); lra);
    try (specialize (F3 ltac:(lra)); lra).
Qed.

Lemma gauge_fill_bounded_witness :
  ordinary 45.2 /\ ordinary 0 /\ ordinary 100 /\ 0 < 100
  /\ within (percentage 45.2 0 100) 0 100.
Proof.
  assert (H1 : ordinary 45.2) by (vm_compute; discriminate).
  assert (H2 : ordinary 0) by (vm_compute; discriminate).
  assert (H3 : ordinary 100) by (vm_compute; discriminate).
  assert (H : 0 < 100) by reflexivity.
  split; [exact H1 | split; [exact H2 | split; [exact H3 | split; [exact H|]]]].
  exact (proj1 (gauge_fill_bounded 45.2 0 100 H1 H2 H3 H)).
Defined.

(** X5.  For a range of width 0 the division is not guarded either: the
    gauge is full for a value above the range, empty for a value below
    it, and its fill is NaN for a value on it. *)
Theorem gauge_empty_range (value mn mx : Q) :
  mn == mx ->
  (mn < value -> percentage value mn mx = Fin 100)
  /\ (value < mn -> percentage value mn mx = Fin 0)
  /\ (value == mn -> percentage value mn mx = NaN).
Proof.
  intros H. unfold percentage.
  change (Fin value - Fin mn)%js with (Fin (value - mn)).
  change (Fin mx - Fin mn)%js with (Fin (mx - mn)).
  assert (Hz : Qeq_bool (mx - mn) 0 = true) by (apply Qeq_bool_iff; lra).
  unfold div. rewrite Hz. unfold sgn.
  repeat split; intros Hv.
  - assert (Hc : (value - mn ?= 0) = Gt) by (apply (proj1 (Qgt_alt _ _)); lra).
    now rewrite Hc.
  - assert (Hc : (value - mn ?= 0) = Lt) by (apply (proj1 (Qlt_alt _ _)); lra).
    now rewrite Hc.
  - assert (Hc : (value - mn ?= 0) = Eq) by (apply (proj1 (Qeq_alt _ _)); lra).
    now rewrite Hc.
Qed.

Lemma gauge_empty_range_witness :
  5 == 5 /\ 5 == 5 /\ percentage 5 5 5 = NaN.
Proof.
  assert (H : 5 == 5) by reflexivity.
  split; [exact H | split; [exact H |]].
  exact (proj2 (proj2 (gauge_empty_range 5 5 5 H)) H).
Defined.

End Gauge.

(* ================================================================== *)
(** ** The parameter card: range test and limit sliders                *)
(* ================================================================== *)

Section Card.
Import JS ProcessParameterCard.

Lemma isInRange_finite (parameter : ProcessParameter) (p s l h : Q) :
  pv parameter = Fin p -> sp parameter = Fin s ->
  lowLimit parameter = Fin l -> highLimit parameter = Fin h ->
  isInRange parameter = true <-> Qabs (s - p) < (h - l) * 0.05.
Proof.
  intros Hp Hs Hl Hh. unfold isInRange, error.
  rewrite Hp, Hs, Hl, Hh. apply ltb_Fin.
Qed.

(** X6.  Limits that are not in strict order leave no range at all: with
    finite values the parameter is then never in range and the badge
    reads ADJ, also when the process variable sits on the setpoint.  With
    limits at least 1 apart a process variable on the setpoint is in
    range, and the status line says so. *)
Theorem in_range_needs_ordered_limits (parameter : ProcessParameter)
    (p s l h : Q) :
  pv parameter = Fin p -> sp parameter = Fin s ->
  lowLimit parameter = Fin l -> highLimit parameter = Fin h ->
  (h <= l -> isInRange parameter = false /\ badgeText parameter = "ADJ")
  /\ (l + 1 <= h -> p == s ->
      isInRange parameter = true /\ badgeText parameter = "OK"
      /\ statusText parameter = status_ok).
Proof.
  intros Hp Hs Hl Hh.
  pose proof (isInRange_finite parameter p s l h Hp Hs Hl Hh) as Hiff.
  split.
  - intros Hle.
    assert (Hf : isInRange parameter = false).
    { apply not_true_iff_false. rewrite Hiff.
      pose proof (Qabs_nonneg (s - p)). lra. }
    unfold badgeText. now rewrite Hf.
  - intros Hlt Heq.
    assert (Ht : isInRange parameter = true).
    { apply Hiff. assert (Hz : s - p == 0) by lra.
      rewrite Hz. change (Qabs 0) with 0. lra. }
    unfold statusText, badgeText. now rewrite Ht.
Qed.

Lemma in_range_needs_ordered_limits_witness :
  pv (handleLimitChange MultiParameterControlDashboard.ore Low 200)
  = Fin 125.5
  /\ sp (handleLimitChange MultiParameterControlDashboard.ore Low 200)
     = Fin 130.0
  /\ lowLimit (handleLimitChange MultiParameterControlDashboard.ore Low 200)
     = Fin 200
  /\ highLimit (handleLimitChange MultiParameterControlDashboard.ore Low 200)
     = Fin 200
  /\ 200 <= 200
  /\ isInRange (handleLimitChange MultiParameterControlDashboard.ore Low 200)
     = false.
Proof.
  assert (H : 200 <= 200) by discriminate.
  do 4 (split; [reflexivity|]). split; [exact H|].
  exact (proj1 (proj1 (in_range_needs_ordered_limits
                         (handleLimitChange MultiParameterControlDashboard.ore
                            Low 200)
                         125.5 130.0 200 200
                         eq_refl eq_refl eq_refl eq_refl) H)).
Defined.

(** X7.  A slider position inside the range its slider offers keeps the
    limits at least 10 apart: the low limit ends in [0, high - 10], the
    high limit in [low + 10, 1.5 * high].  The change touches the one
    limit only; the process variable, the setpoint and the trend are
    handed on as they are. *)
Theorem sliders_keep_limits_apart (parameter : ProcessParameter)
    (l h v : Q) (type : limitType) :
  lowLimit parameter = Fin l -> highLimit parameter = Fin h ->
  (within v (lowSliderMin parameter) (lowSliderMax parameter) ->
   lowLimit (handleLimitChange parameter Low v) = Fin v
   /\ highLimit (handleLimitChange parameter Low v) = Fin h
   /\ 0 <= v /\ v + 10 <= h)
  /\ (within v (highSliderMin parameter) (highSliderMax parameter) ->
      lowLimit (handleLimitChange parameter High v) = Fin l
      /\ highLimit (handleLimitChange parameter High v) = Fin v
      /\ l + 10 <= v /\ v <= h * 1.5)
  /\ pv (handleLimitChange parameter type v) = pv parameter
  /\ sp (handleLimitChange parameter type v) = sp parameter
  /\ aiSp (handleLimitChange parameter type v) = aiSp parameter
  /\ trend (handleLimitChange parameter type v) = trend parameter.
Proof.
  intros Hl Hh.
  unfold lowSliderMin, lowSliderMax, highSliderMin, highSliderMax.
  rewrite Hl, Hh. simpl.
  split; [|split].
  - intros [H1 H2]. repeat split; try assumption; lra.
  - intros [H1 H2]. repeat split; try assumption; lra.
  - destruct type; repeat split.
Qed.

Lemma sliders_keep_limits_apart_witness :
  lowLimit MultiParameterControlDashboard.ore = Fin 100
  /\ highLimit MultiParameterControlDashboard.ore = Fin 200
  /\ within 190
       (lowSliderMin MultiParameterControlDashboard.ore)
       (lowSliderMax MultiParameterControlDashboard.ore)
  /\ lowLimit (handleLimitChange MultiParameterControlDashboard.ore Low 190)
     = Fin 190.
Proof.
  assert (Hw : within 190
                 (lowSliderMin MultiParameterControlDashboard.ore)
                 (lowSliderMax MultiParameterControlDashboard.ore))
    by (split; discriminate).
  split; [reflexivity | split; [reflexivity | split; [exact Hw |]]].
  exact (proj1 (proj1 (sliders_keep_limits_apart
                         MultiParameterControlDashboard.ore 100 200 190 Low
                         eq_refl eq_refl) Hw)).
Defined.

End Card.

(* ================================================================== *)
(** ** The deviation for a divisor other than 0, and the target input  *)
(* ================================================================== *)

Section Display.
Import JS.

(** X8.  For a value of magnitude at most 1e100 and a divisor of
    magnitude between 1e-100 and 1e100 the two deviation percentages are
    finite and not negative: 100 times the magnitude of the error over
    the magnitude of the divisor (exact here, rounded to double precision
    by the program), and 0 when the value sits on its goal. *)
Theorem deviation_finite (z v : Q) (parameter : ProcessParameter) :
  1e-100 <= Qabs z <= 1e100 ->
  Qabs v <= 1e100 ->
  sp parameter = Fin z ->
  pv parameter = Fin v ->
  ProcessParameterCard.errorPercentage parameter
  = Fin (Qabs ((z - v) / z) * 100)
  /\ FractionMainDisplay.errorPercentage v z
     = Fin (Qabs ((z - v) / z) * 100)
  /\ 0 <= Qabs ((z - v) / z) * 100
  /\ (v == z -> Qabs ((z - v) / z) * 100 == 0).
Proof.
  intros [Hlo _] _ Hsp Hpv.
  assert (Hz : ~ z == 0).
  { intros H0. rewrite H0 in Hlo. revert Hlo. apply Qlt_not_le.
    reflexivity. }
  unfold ProcessParameterCard.errorPercentage, ProcessParameterCard.error,
    FractionMainDisplay.errorPercentage, FractionMainDisplay.error.
  rewrite Hsp, Hpv.
  change (Fin z - Fin v)%js with (Fin (z - v)).
  rewrite div_Fin by assumption.
  split; [reflexivity|]. split; [reflexivity|].
  pose proof (Qabs_nonneg ((z - v) / z)) as Hpos.
  split; [lra|].
  intros Hv. assert (Hq : (z - v) / z == 0).
  { assert (Hn : z - v == 0) by lra. rewrite Hn. unfold Qdiv. ring. }
  rewrite Hq. reflexivity.
Qed.

Lemma deviation_finite_witness :
  1e-100 <= Qabs 130.0 <= 1e100
  /\ Qabs 125.5 <= 1e100
  /\ sp MultiParameterControlDashboard.ore = Fin 130.0
  /\ pv MultiParameterControlDashboard.ore = Fin 125.5
  /\ ProcessParameterCard.errorPercentage MultiParameterControlDashboard.ore
     = Fin (Qabs ((130.0 - 125.5) / 130.0) * 100).
Proof.
  assert (H1 : 1e-100 <= Qabs 130.0 <= 1e100)
    by (split; vm_compute; discriminate).
  assert (H2 : Qabs 125.5 <= 1e100) by (vm_compute; discriminate).
  split; [exact H1 | split; [exact H2 |]].
  split; [reflexivity | split; [reflexivity|]].
  exact (proj1 (deviation_finite 130.0 125.5
                  MultiParameterControlDashboard.ore H1 H2 eq_refl eq_refl)).
Defined.

End Display.

Section TargetText.
Import JS FractionMainDisplay.

(** X9.  Every number the text of the target input parses to is handed to
    [onTargetChange] as it is, inside the range 70 to 95 or not: the
    handler replaces NaN only. *)
Theorem target_input_unchecked {T : Type} (parseFloat : string -> number)
    (onTargetChange : number -> T) (value : string) (x : number) :
  parseFloat value = x ->
  is_nan x = false ->
  exists y, onChange parseFloat onTargetChange value = onTargetChange y
            /\ (y ≃ x)%js.
Proof.
  intros Hp Hx. unfold onChange, or_else. rewrite Hp.
  destruct x as [q| | |]; try discriminate; simpl.
  - destruct (Qeq_bool q 0) eqn:Hq; simpl.
    + exists (Fin 0). split; [reflexivity|].
      apply Qeq_bool_iff in Hq. simpl. now symmetry.
    + exists (Fin q). split; reflexivity.
  - exists PInf. split; [reflexivity | exact I].
  - exists NInf. split; [reflexivity | exact I].
Qed.

Lemma target_input_unchecked_witness :
  (fun _ : string => Fin 1000) "1000" = Fin 1000
  /\ is_nan (Fin 1000) = false
  /\ exists y, onChange (fun _ : string => Fin 1000) (fun x : number => x)
                 "1000" = y
               /\ (y ≃ Fin 1000)%js.
Proof.
  split; [reflexivity | split; [reflexivity|]].
  exact (target_input_unchecked (fun _ : string => Fin 1000)
           (fun x : number => x) "1000" (Fin 1000) eq_refl eq_refl).
Defined.

End TargetText.

(* ================================================================== *)
(** ** The influence terms for a parameter that is present             *)
(* ================================================================== *)

Section Influence.
Import JS MultiParameterControlDashboard.

(** X10.  A parameter that is present enters its influence term with its
    process variable, [pv / 130 * 20] for the ore and [pv / 48 * 15] for
    the water, unless that variable is 0 or NaN: such a value is replaced
    by the fallback, as if the parameter were missing. *)
Theorem influence_of_present_parameter (params : list ProcessParameter)
    (param : ProcessParameter) :
  (params !! 0%nat = Some param ->
   oreInfluence params
   = if truthy (pv param) then (pv param / 130 * 20)%js
     else oreInfluence [])
  /\ (params !! 1%nat = Some param ->
      waterInfluence params
      = if truthy (pv param) then (pv param / 48 * 15)%js
        else waterInfluence [])
  /\ (pv param = Fin 0 \/ pv param = NaN -> truthy (pv param) = false)
  /\ (forall q : Q, ~ q == 0 -> pv param = Fin q ->
      truthy (pv param) = true
      /\ (pv param / 130 * 20)%js = Fin (q / 130 * 20)
      /\ (pv param / 48 * 15)%js = Fin (q / 48 * 15)).
Proof.
  split; [|split; [|split]].
  - intros H. unfold oreInfluence, pv_at. rewrite H. simpl.
    unfold or_else. now destruct (truthy (pv param)).
  - intros H. unfold waterInfluence, pv_at. rewrite H. simpl.
    unfold or_else. now destruct (truthy (pv param)).
  - intros [-> | ->]; reflexivity.
  - intros q Hq ->. simpl. split; [|split; reflexivity].
    destruct (Qeq_bool q 0) eqn:H; [|reflexivity].
    now apply Qeq_bool_iff in H.
Qed.

Lemma influence_of_present_parameter_witness :
  [ore] !! 0%nat = Some ore
  /\ oreInfluence [ore] = Fin (125.5 / 130 * 20).
Proof.
  split; [reflexivity|].
  exact (proj1 (influence_of_present_parameter [ore] ore) eq_refl).
Defined.

End Influence.

(* ================================================================== *)
(** ** Where one tick takes the setpoint                                *)
(* ================================================================== *)

Section Steps.
Import JS ProcessControlDashboard.

(** The AI setpoint in terms of the rational arithmetic. *)
Lemma nextAiSp_cases (low high sp : Q) (manual : number) (r : Q) :
  exists a : Q,
    nextAiSp true low high sp manual r = Fin a
    /\ a = (let x := sp + perturbation r in
            let m := if Qlt_le_dec x high then x else high in
            if Qlt_le_dec low m then m else low).
Proof.
  rewrite nextAiSp_enabled, min_Fin, max_Fin. eexists. split; reflexivity.
Qed.



(** X14.  With the limits crossed ([high < low]) the AI setpoint is the
    low limit at every tick, whatever the current setpoint and the draw:
    it then lies above the high limit. *)
Theorem crossed_limits_pin_setpoint (low high sp : Q) (manual : number)
    (r : Q) :
  high < low ->
  nextAiSp true low high sp manual r = Fin low
  /\ ~ within (nextAiSp true low high sp manual r) low high.
Proof.
  intros H.
  destruct (nextAiSp_cases low high sp manual r) as (a & Ha & Hval).
  assert (Hlow : a = low).
  { cbv zeta in Hval.
    destruct (Qlt_le_dec (sp + perturbation r) high) as [H1|H1];
      match type of Hval with context [Qlt_le_dec low ?m] =>
        destruct (Qlt_le_dec low m) as [H2|H2] end;
      try exact Hval; lra. }
  rewrite Ha, Hlow. split; [reflexivity|]. simpl. lra.
Qed.

Lemma crossed_limits_pin_setpoint_witness :
  60 < 70 /\ nextAiSp true 70 60 50.0 50.0 0.5 = Fin 70.
Proof.
  assert (H : 60 < 70) by reflexivity.
  split; [exact H|].
  exact (proj1 (crossed_limits_pin_setpoint 70 60 50.0 50.0 0.5 H)).
Defined.

End Steps.

(* ================================================================== *)
(** ** The history over runs of the engine                             *)
(* ================================================================== *)

Section Window.
Import ProcessControlDashboard.

Lemma slice_last_50 {A : Type} (l : list A) :
  JS.slice (-50) l = drop (length l - 50) l.
Proof. unfold JS.slice. f_equal. simpl. lia. Qed.

(** Cutting to the last 50 entries before more entries arrive changes
    nothing of what is left after the next cut. *)
Lemma slice_slice_app {A : Type} (l more : list A) :
  JS.slice (-50) (JS.slice (-50) l ++ more) = JS.slice (-50) (l ++ more).
Proof.
  rewrite !slice_last_50, !length_app, length_drop.
  rewrite <- (drop_app_le l more (length l - 50)) by lia.
  rewrite drop_drop. f_equal. lia.
Qed.

Lemma tick_processData (now : Z) (r1 r2 : Q) (s : state) :
  processData (tick now r1 r2 s)
  = JS.slice (-50) (processData s ++ [sampleOf now r1 r2 s]).
Proof. reflexivity. Qed.

Lemma samples_length (ticks : list (Z * Q * Q)) (s : state) :
  length (samples ticks s) = length ticks.
Proof.
  revert s. induction ticks as [|[[now r1] r2] rest IH]; intros s;
    [reflexivity|]. simpl. now rewrite IH.
Qed.

(** X15.  After any non-empty sequence of ticks the history is the last 50
    entries of the earlier history followed by the samples of the ticks, in
    their order; it holds as many entries as there were before plus one per
    tick, up to 50. *)
Theorem history_is_recent_window (ticks : list (Z * Q * Q)) (s : state) :
  ticks <> [] ->
  processData (run ticks s)
  = JS.slice (-50) (processData s ++ samples ticks s)
  /\ length (processData (run ticks s))
     = Nat.min 50 (length (processData s) + length ticks).
Proof.
  intros Hne.
  assert (Heq : processData (run ticks s)
                = JS.slice (-50) (processData s ++ samples ticks s)).
  { revert s. induction ticks as [|[[now r1] r2] rest IH]; intros s; [done|].
    destruct rest as [|t rest'].
    - apply tick_processData.
    - change (run ((now, r1, r2) :: t :: rest') s)
        with (run (t :: rest') (tick now r1 r2 s)).
      rewrite IH by discriminate.
      rewrite tick_processData, slice_slice_app, <- app_assoc.
      reflexivity. }
  split; [exact Heq|].
  rewrite Heq, slice_last_50, length_drop, length_app, samples_length. lia.
Qed.

Lemma history_is_recent_window_witness :
  [(1000%Z, 0.5, 0.5); (2000%Z, 0.5, 0.5)] <> []
  /\ length (processData
               (run [(1000%Z, 0.5, 0.5); (2000%Z, 0.5, 0.5)] initial))
     = Nat.min 50 (length (processData initial) + 2).
Proof.
  assert (H : [(1000%Z, 0.5, 0.5); (2000%Z, 0.5, 0.5)] <> [])
    by discriminate.
  split; [exact H|].
  exact (proj2 (history_is_recent_window _ initial H)).
Defined.

Lemma tick_consistent (now : Z) (r1 r2 : Q) (s : state) :
  history_consistent s -> history_consistent (tick now r1 r2 s).
Proof.
  intros (Hlen & Hall & Hlast). split; [|split].
  - simpl. rewrite appendHistory_length. lia.
  - simpl. rewrite appendHistory_drop. apply Forall_app. split.
    + now apply Forall_drop.
    + now constructor.
  - simpl. rewrite appendHistory_last. intros d [= <-]. now split.
Qed.

(** X16.  In every state the engine reaches from its initial state, by
    ticks and by the setters in any order, the history holds at most 50
    samples, each sample records its setpoint in both of its setpoint
    fields, and the newest sample carries the current process variable and
    the current setpoint. *)
Theorem reachable_history_consistent (s : state) :
  reachable s -> history_consistent s.
Proof.
  induction 1 as [|e s Hs IH Hv].
  - split; [simpl; lia | split; [constructor | discriminate]].
  - destruct e; simpl; try exact IH. now apply tick_consistent.
Qed.

Lemma reachable_history_consistent_witness :
  reachable (tick 1000 0.5 0.5 initial)
  /\ history_consistent (tick 1000 0.5 0.5 initial).
Proof.
  assert (H : reachable (tick 1000 0.5 0.5 initial)).
  { apply (reachable_event (Tick 1000 0.5 0.5) initial reachable_initial).
    repeat split; try discriminate; reflexivity. }
  split; [exact H|].
  exact (reachable_history_consistent _ H).
Defined.

End Window.

(* ================================================================== *)
(** ** The year of a file name                                         *)
(* ================================================================== *)

Section Year.
Import ExcelProcessor.
Local Open Scope Z_scope.

Lemma digit_value_range (d : ascii) :
  is_digit d = true -> 0 <= digit_value d <= 9.
Proof.
  unfold is_digit, digit_value. intros H.
  apply andb_true_iff in H as [H1 H2].
  apply Nat.leb_le in H1, H2. lia.
Qed.

Lemma match_here_Some (s : string) (year : Z) :
  match_here s = Some year ->
  exists d1 d2 after,
    occurs s EmptyString d1 d2 after
    /\ year = 2000 + 10 * digit_value d1 + digit_value d2.
Proof.
  destruct s as [|c1 [|c2 [|d1 [|d2 after]]]]; simpl; try discriminate.
  destruct (Ascii.eqb c1 "2") eqn:E1; simpl; [|discriminate].
  destruct (Ascii.eqb c2 "0") eqn:E2; simpl; [|discriminate].
  destruct (is_digit d1) eqn:D1; simpl; [|discriminate].
  destruct (is_digit d2) eqn:D2; simpl; [|discriminate].
  intros [= <-]. apply Ascii.eqb_eq in E1, E2. subst.
  exists d1, d2, after. repeat split; assumption.
Qed.

Lemma match_here_None (s : string) (d1 d2 : ascii) (after : string) :
  match_here s = None -> ~ occurs s EmptyString d1 d2 after.
Proof.
  intros H (Hs & D1 & D2). subst s. simpl in H.
  rewrite D1, D2 in H. discriminate.
Qed.

Lemma search_cons (c : ascii) (rest : string) :
  search (String c rest)
  = match match_here (String c rest) with
    | Some year => Some year
    | None => search rest
    end.
Proof. reflexivity. Qed.

Lemma occurs_cons (c : ascii) (rest before : string) (d1 d2 : ascii)
    (after : string) :
  occurs rest before d1 d2 after ->
  occurs (String c rest) (String c before) d1 d2 after.
Proof. intros (-> & D1 & D2). repeat split; assumption. Qed.

Lemma occurs_tail (c : ascii) (rest before : string) (d1 d2 : ascii)
    (after : string) :
  occurs (String c rest) before d1 d2 after ->
  occurs (String c rest) EmptyString d1 d2 after
  \/ exists before', before = String c before'
                     /\ occurs rest before' d1 d2 after.
Proof.
  intros (Hs & D1 & D2). destruct before as [|c' before'].
  - left. repeat split; assumption.
  - right. simpl in Hs. injection Hs as -> ->.
    exists before'. repeat split; assumption.
Qed.

(** The search finds the leftmost match. *)
Lemma search_Some (s : string) (year : Z) :
  search s = Some year ->
  exists before d1 d2 after,
    occurs s before d1 d2 after
    /\ year = 2000 + 10 * digit_value d1 + digit_value d2
    /\ forall before' e1 e2 after',
        occurs s before' e1 e2 after' ->
        (String.length before <= String.length before')%nat.
Proof.
  induction s as [|c rest IH].
  - discriminate.
  - rewrite search_cons.
    destruct (match_here (String c rest)) as [y|] eqn:Hm.
    + intros [= <-]. apply match_here_Some in Hm as (d1 & d2 & after & Ho & Hy).
      exists EmptyString, d1, d2, after.
      split; [exact Ho | split; [exact Hy|]]. intros; simpl; lia.
    + intros Hs. destruct (IH Hs) as (before & d1 & d2 & after & Ho & Hy & Hl).
      exists (String c before), d1, d2, after.
      split; [now apply occurs_cons | split; [exact Hy|]].
      intros before' e1 e2 after' Ho'.
      apply occurs_tail in Ho' as [Ho'|(b'' & -> & Ho')].
      * now apply match_here_None in Ho'.
      * simpl. apply Hl in Ho'. lia.
Qed.

Lemma search_None (s : string) :
  search s = None ->
  forall before d1 d2 after, ~ occurs s before d1 d2 after.
Proof.
  induction s as [|c rest IH]; intros Hs before d1 d2 after Ho.
  - destruct Ho as (Ho & _). destruct before; discriminate.
  - rewrite search_cons in Hs.
    destruct (match_here (String c rest)) eqn:Hm; [discriminate|].
    apply occurs_tail in Ho as [Ho|(b' & -> & Ho)].
    + now apply match_here_None in Ho.
    + exact (IH Hs _ _ _ _ Ho).
Qed.

(** X17.  For a file name in ASCII: when its base name has no "20"
    followed by two digits the year is the current year; otherwise it is
    the number 20dd read at the leftmost such place of the base name, a
    year from 2000 to 2099. *)
Theorem extract_year_leftmost (current_year : Z) (filename : string) :
  ascii_only filename = true ->
  ((forall before d1 d2 after,
       ~ occurs (basename filename) before d1 d2 after) ->
   extract_year_from_filename current_year filename = current_year)
  /\ (forall before0 e1 e2 after0,
        occurs (basename filename) before0 e1 e2 after0 ->
        exists before d1 d2 after,
          occurs (basename filename) before d1 d2 after
          /\ extract_year_from_filename current_year filename
             = 2000 + 10 * digit_value d1 + digit_value d2
          /\ (String.length before <= String.length before0)%nat
          /\ 2000 <= extract_year_from_filename current_year filename
             <= 2099).
Proof.
  intros _. unfold extract_year_from_filename.
  destruct (search (basename filename)) as [year|] eqn:Hs.
  - apply search_Some in Hs as (before & d1 & d2 & after & Ho & Hy & Hl).
    split.
    + intros Hno. now apply Hno in Ho.
    + intros before0 e1 e2 after0 Ho0.
      exists before, d1, d2, after.
      split; [exact Ho | split; [exact Hy | split; [now apply (Hl _ _ _ _ Ho0)|]]].
      destruct Ho as (_ & D1 & D2).
      apply digit_value_range in D1, D2. lia.
  - split; [reflexivity|].
    intros before0 e1 e2 after0 Ho0.
    now apply (search_None _ Hs) in Ho0.
Qed.

Lemma extract_year_leftmost_witness :
  ascii_only "Report_2023_January_2024.xlsx" = true
  /\ occurs (basename "Report_2023_January_2024.xlsx")
       "Report_2023_January_" "2" "4" ".xlsx"
  /\ exists before d1 d2 after,
      occurs (basename "Report_2023_January_2024.xlsx") before d1 d2 after
      /\ extract_year_from_filename 2026 "Report_2023_January_2024.xlsx"
         = 2000 + 10 * digit_value d1 + digit_value d2
      /\ (String.length before <= String.length "Report_2023_January_")%nat
      /\ 2000 <= extract_year_from_filename 2026
                   "Report_2023_January_2024.xlsx" <= 2099.
Proof.
  assert (H1 : ascii_only "Report_2023_January_2024.xlsx" = true)
    by reflexivity.
  assert (H2 : occurs (basename "Report_2023_January_2024.xlsx")
                 "Report_2023_January_" "2" "4" ".xlsx")
    by (repeat split).
  split; [exact H1 | split; [exact H2|]].
  exact (proj2 (extract_year_leftmost 2026 "Report_2023_January_2024.xlsx"
                  H1) _ _ _ _ H2).
Defined.

Lemma after_last_slash_app (dir file : string) :
  after_last_slash file = None ->
  after_last_slash (dir ++ String "/" file)%string = Some file.
Proof.
  intros H. induction dir as [|c dir IH]; simpl.
  - now rewrite H.
  - now rewrite IH.
Qed.

(** X18.  Only the base name is searched.  For a path in ASCII whose last
    component [file] has no "/", the directory in front of it changes
    nothing: a year in a directory name is never used.  A path that ends
    in "/" has an empty base name and gets the current year. *)
Theorem year_ignores_directories (current_year : Z) (dir file : string) :
  ascii_only (dir ++ String "/" file)%string = true ->
  after_last_slash file = None ->
  extract_year_from_filename current_year (dir ++ String "/" file)%string
  = extract_year_from_filename current_year file
  /\ extract_year_from_filename current_year (dir ++ "/")%string
     = current_year.
Proof.
  intros _ H. unfold extract_year_from_filename, basename.
  rewrite (after_last_slash_app dir file H).
  rewrite (after_last_slash_app dir EmptyString eq_refl), H.
  split; reflexivity.
Qed.

Lemma year_ignores_directories_witness :
  ascii_only "/data/2019/Report_2024.xlsx" = true
  /\ after_last_slash "Report_2024.xlsx" = None
  /\ extract_year_from_filename 2026 "/data/2019/Report_2024.xlsx"
     = extract_year_from_filename 2026 "Report_2024.xlsx".
Proof.
  split; [reflexivity | split; [reflexivity|]].
  exact (proj1 (year_ignores_directories 2026 "/data/2019" "Report_2024.xlsx"
                  eq_refl eq_refl)).
Defined.

(** The assertions of test_year_extraction.py, with the current year
    2026. *)
Example test_year_extraction :
  extract_year_from_filename 2026 "Doklad_Dispecheri_2024.xlsx" = 2024
  /\ extract_year_from_filename 2026 "/path/to/Report_2023_January.xlsx"
     = 2023
  /\ extract_year_from_filename 2026 "C:\Data\2022\Dispatcher.xlsx" = 2022
  /\ extract_year_from_filename 2026 "Dispatcher_Report.xlsx" = 2026.
Proof. repeat split. Qed.

End Year.
